(** * explain_query_spark.py: a verified model of the TPC query explainer

    The script reads a TPC-H or TPC-DS query from a file, translates it to
    Spark SQL with sqlglot, asks a local Spark session for the physical plan
    and prints everything on standard output.

    The script is modelled as a program in a small monad [Py] that threads
    the local variable [spark] and the trace of everything the process does
    to the outside world (prints, file-system calls, calls to sqlglot and
    to Spark), and that propagates Python exceptions, [SystemExit]
    included.  The outside world is a record [Env] of oracles; every oracle
    receives the trace so far, hence its answer may depend on the whole
    history of the run.

    Scope of the model.
    - Strings are sequences of ASCII characters; [PyStr.lower] and
      [PyStr.to_int] are [str.lower] and [int] on such strings.
    - Paths follow [posixpath].
    - [print] and [spark.stop()] return normally; the collaborators raise
      subclasses of [Exception] only. *)

From Stdlib Require Import String Ascii ZArith NArith List Lia Bool DecimalString.
From Stdlib Require Import DecimalPos DecimalZ.
From ExtLib Require Import Structures.Monad.
Import ListNotations.
Import MonadNotation.

Local Open Scope string_scope.
Local Open Scope monad_scope.

Set Implicit Arguments.

(** ** Python strings *)

Module PyStr.

(** The newline character. *)
Definition nl : string := String (ascii_of_N 10) EmptyString.

(** [s * n] *)
Fixpoint mul (s : string) (n : nat) : string :=
  match n with
  | O => EmptyString
  | S n' => s ++ mul s n'
  end.

(** [str.lower] on one ASCII character *)
Definition lower_ascii (c : ascii) : ascii :=
  let n := N_of_ascii c in
  if ((65 <=? n) && (n <=? 90))%N then ascii_of_N (n + 32) else c.

(** [str.lower] *)
Fixpoint lower (s : string) : string :=
  match s with
  | EmptyString => EmptyString
  | String c s' => String (lower_ascii c) (lower s')
  end.

(** [sub in s] *)
Fixpoint contains (sub s : string) : bool :=
  prefix sub s ||
  match s with
  | EmptyString => false
  | String _ s' => contains sub s'
  end.

(** [str(n)] and [f"{n}"] for an [int]: the decimal numeral, with a
    leading minus sign for a negative number. *)
Definition of_int (n : Z) : string := NilZero.string_of_int (Z.to_int n).

(** *** [int(s)]

    Surrounding whitespace (tab, line feed, vertical tab, form feed,
    carriage return, space) is dropped, one sign is allowed, and the rest
    is a non-empty run of decimal digits in which single underscores may
    separate digits.  Since CPython 3.11 a numeral with more than
    [sys.get_int_max_str_digits()] digits is refused as well; a limit of
    0 disables that check. *)

Definition is_space (c : ascii) : bool :=
  let n := N_of_ascii c in
  ((9 <=? n) && (n <=? 13) || (n =? 32))%N.

Definition is_digit (c : ascii) : bool :=
  let n := N_of_ascii c in ((48 <=? n) && (n <=? 57))%N.

Definition digit_value (c : ascii) : Z := Z.of_N (N_of_ascii c) - 48.

Fixpoint lstrip (l : list ascii) : list ascii :=
  match l with
  | c :: l' => if is_space c then lstrip l' else l
  | [] => []
  end.

Definition strip (l : list ascii) : list ascii :=
  rev (lstrip (rev (lstrip l))).

(** [digits acc count seen l]: [acc] is the value read so far, [count]
    the number of digits read, [seen] tells whether the previous
    character was a digit. *)
Fixpoint digits (acc : Z) (count : nat) (seen : bool) (l : list ascii)
  : option (Z * nat) :=
  match l with
  | [] => if seen then Some (acc, count) else None
  | c :: l' =>
      if is_digit c then digits (10 * acc + digit_value c) (S count) true l'
      else if Ascii.eqb c "_" then
             if seen then digits acc count false l' else None
           else None
  end.

Definition to_int (max_str_digits : nat) (s : string) : option Z :=
  let l := strip (list_ascii_of_string s) in
  let '(negative, body) :=
    match l with
    | c :: l' =>
        if Ascii.eqb c "-" then (true, l')
        else if Ascii.eqb c "+" then (false, l')
        else (false, l)
    | [] => (false, l)
    end in
  match digits 0 0 false body with
  | Some (v, count) =>
      if negb (max_str_digits =? 0)%nat && (max_str_digits <? count)%nat
      then None
      else Some (if negative then (- v)%Z else v)
  | None => None
  end.

End PyStr.

(** ** [os.path] *)

Module OsPath.

Definition sep : string := "/".

(** [path.endswith(sep)] *)
Fixpoint endswith_sep (path : string) : bool :=
  match path with
  | EmptyString => false
  | String c EmptyString => Ascii.eqb c "/"
  | String _ rest => endswith_sep rest
  end.

(** One round of the loop of [posixpath.join]. *)
Definition join_step (path b : string) : string :=
  if prefix sep b then b
  else if String.eqb path "" || endswith_sep path then path ++ b
  else path ++ sep ++ b.

(** [os.path.join(a, *p)] *)
Definition join (a : string) (p : list string) : string :=
  fold_left join_step p a.

End OsPath.

(** ** Exceptions *)

(** The classes the script tells apart.  [OtherException] stands for every
    other subclass of [Exception]. *)
Inductive exc_class : Type :=
| ValueError
| FileNotFoundError
| RuntimeError
| OtherException.

(** An exception object: its class and [str(e)]. *)
Record error : Type := Error { cls : exc_class; msg : string }.

Inductive exn : Type :=
| Exception (e : error)
| SystemExit (code : Z).

Definition exc_class_eqb (a b : exc_class) : bool :=
  match a, b with
  | ValueError, ValueError
  | FileNotFoundError, FileNotFoundError
  | RuntimeError, RuntimeError
  | OtherException, OtherException => true
  | _, _ => false
  end.

(** ** The outside world *)

(** What the process does, in order; an event of a call records the answer
    the call got. *)
Inductive event : Type :=
| Print (text : string)
| PathExists (path : string) (found : bool)
| OpenRead (path : string) (r : error + string)
| Transpile (sql read write : string) (r : error + list string)
| GetOrCreate (r : option error)
| Sql (stmt : string) (r : option error)
| ExplainString (query : string) (r : error + string)
| Stop
| Traceback (e : error).

Definition trace : Type := list event.

Record Env : Type := {
  (** [os.path.dirname(os.path.abspath(__file__))] *)
  script_dir : string;
  (** [sys.get_int_max_str_digits()] *)
  int_max_str_digits : nat;
  (** [os.path.exists(path)] *)
  path_exists : trace -> string -> bool;
  (** [open(path, 'r')] followed by [f.read()] *)
  open_read : trace -> string -> error + string;
  (** [sqlglot.transpile(sql, read=..., write=..., pretty=True)] *)
  transpile : trace -> string -> string -> string -> error + list string;
  (** [SparkSession.builder ... .getOrCreate()] *)
  get_or_create : trace -> option error;
  (** [spark.sql(stmt)] *)
  sql : trace -> string -> option error;
  (** [df._jdf.queryExecution().explainString(extended)] *)
  explain_string : trace -> string -> error + string
}.

(** ** The monad of the script *)

(** A handle on the Spark session. *)
Inductive session : Type := SparkSession.

Record state : Type := State {
  events : trace;
  spark : option session   (* the local variable [spark] of [main] *)
}.

Inductive outcome (A : Type) : Type :=
| Ret (a : A)
| Raise (e : exn).

Arguments Ret {A} a.
Arguments Raise {A} e.

Definition Py (A : Type) : Type := state -> outcome A * state.

#[global] Instance Monad_Py : Monad Py := {
  ret := fun A (a : A) s => (Ret a, s);
  bind := fun A B (m : Py A) (k : A -> Py B) s =>
            match m s with
            | (Ret a, s') => k a s'
            | (Raise e, s') => (Raise e, s')
            end
}.

Definition raise {A : Type} (e : exn) : Py A := fun s => (Raise e, s).

Definition emit (e : event) : Py unit :=
  fun s => (Ret tt, State (events s ++ [e])%list (spark s)).

(** A call to the outside: the oracle sees the trace so far, and the call
    is recorded together with its answer. *)
Definition call {A : Type} (ask : trace -> A) (record : A -> event) : Py A :=
  fun s => let a := ask (events s) in
           (Ret a, State (events s ++ [record a])%list (spark s)).

Definition get_spark : Py (option session) := fun s => (Ret (spark s), s).

Definition set_spark (v : option session) : Py unit :=
  fun s => (Ret tt, State (events s) v).

(** [try: body except C as e: handler e], where [handles] tells which
    classes are instances of [C].  [SystemExit] is no [Exception]. *)
Definition try_except {A : Type} (body : Py A) (handles : exc_class -> bool)
           (handler : error -> Py A) : Py A :=
  fun s =>
    match body s with
    | (Raise (Exception e), s') =>
        if handles (cls e) then handler e s' else (Raise (Exception e), s')
    | r => r
    end.

(** [try: body finally: final] *)
Definition try_finally {A : Type} (body : Py A) (final : Py unit) : Py A :=
  fun s =>
    let '(r, s') := body s in
    match final s' with
    | (Ret _, s'') => (r, s'')
    | (Raise e, s'') => (Raise e, s'')
    end.

Definition print (text : string) : Py unit := emit (Print text).

Definition sys_exit {A : Type} (code : Z) : Py A := raise (SystemExit code).

Definition of_result {A : Type} (r : error + A) : Py A :=
  match r with
  | inl e => raise (Exception e)
  | inr a => ret a
  end.

Definition of_status (r : option error) : Py unit :=
  match r with
  | Some e => raise (Exception e)
  | None => ret tt
  end.

(** ** The text of the script *)

(** The docstring of the module, [__doc__]. *)
Definition __doc__ : string := "
Script to translate TPC-H/TPC-DS queries to Spark SQL and print their physical plans.

Usage:
    python explain_query.py <benchmark> <query_number>
    
Arguments:
    benchmark: 'tpc-h' or 'tpc-ds'
    query_number: The query number to explain

Example:
    python explain_query.py tpc-h 1
    python explain_query.py tpc-ds 42
".

(** The statements of [create_tpc_h_tables], as they are written in the script. *)
Module TpcH.

Definition nation : string := "
        CREATE TABLE IF NOT EXISTS nation (
            n_nationkey INT,
            n_name STRING,
            n_regionkey INT,
            n_comment STRING
        )
    ".

Definition region : string := "
        CREATE TABLE IF NOT EXISTS region (
            r_regionkey INT,
            r_name STRING,
            r_comment STRING
        )
    ".

Definition part : string := "
        CREATE TABLE IF NOT EXISTS part (
            p_partkey INT,
            p_name STRING,
            p_mfgr STRING,
            p_brand STRING,
            p_type STRING,
            p_size INT,
            p_container STRING,
            p_retailprice DECIMAL(15,2),
            p_comment STRING
        )
    ".

Definition supplier : string := "
        CREATE TABLE IF NOT EXISTS supplier (
            s_suppkey INT,
            s_name STRING,
            s_address STRING,
            s_nationkey INT,
            s_phone STRING,
            s_acctbal DECIMAL(15,2),
            s_comment STRING
        )
    ".

Definition partsupp : string := "
        CREATE TABLE IF NOT EXISTS partsupp (
            ps_partkey INT,
            ps_suppkey INT,
            ps_availqty INT,
            ps_supplycost DECIMAL(15,2),
            ps_comment STRING
        )
    ".

Definition customer : string := "
        CREATE TABLE IF NOT EXISTS customer (
            c_custkey INT,
            c_name STRING,
            c_address STRING,
            c_nationkey INT,
            c_phone STRING,
            c_acctbal DECIMAL(15,2),
            c_mktsegment STRING,
            c_comment STRING
        )
    ".

Definition orders : string := "
        CREATE TABLE IF NOT EXISTS orders (
            o_orderkey INT,
            o_custkey INT,
            o_orderstatus STRING,
            o_totalprice DECIMAL(15,2),
            o_orderdate DATE,
            o_orderpriority STRING,
            o_clerk STRING,
            o_shippriority INT,
            o_comment STRING
        )
    ".

Definition lineitem : string := "
        CREATE TABLE IF NOT EXISTS lineitem (
            l_orderkey INT,
            l_partkey INT,
            l_suppkey INT,
            l_linenumber INT,
            l_quantity DECIMAL(15,2),
            l_extendedprice DECIMAL(15,2),
            l_discount DECIMAL(15,2),
            l_tax DECIMAL(15,2),
            l_returnflag STRING,
            l_linestatus STRING,
            l_shipdate DATE,
            l_commitdate DATE,
            l_receiptdate DATE,
            l_shipinstruct STRING,
            l_shipmode STRING,
            l_comment STRING
        )
    ".

End TpcH.

(** The statements of [create_tpc_ds_tables], as they are written in the script. *)
Module TpcDs.

Definition store_sales : string := "
        CREATE TABLE IF NOT EXISTS store_sales (
            ss_sold_date_sk INT,
            ss_sold_time_sk INT,
            ss_item_sk INT,
            ss_customer_sk INT,
            ss_cdemo_sk INT,
            ss_hdemo_sk INT,
            ss_addr_sk INT,
            ss_store_sk INT,
            ss_promo_sk INT,
            ss_ticket_number INT,
            ss_quantity INT,
            ss_wholesale_cost DECIMAL(7,2),
            ss_list_price DECIMAL(7,2),
            ss_sales_price DECIMAL(7,2),
            ss_ext_discount_amt DECIMAL(7,2),
            ss_ext_sales_price DECIMAL(7,2),
            ss_ext_wholesale_cost DECIMAL(7,2),
            ss_ext_list_price DECIMAL(7,2),
            ss_ext_tax DECIMAL(7,2),
            ss_coupon_amt DECIMAL(7,2),
            ss_net_paid DECIMAL(7,2),
            ss_net_paid_inc_tax DECIMAL(7,2),
            ss_net_profit DECIMAL(7,2)
        )
    ".

Definition store_returns : string := "
        CREATE TABLE IF NOT EXISTS store_returns (
            sr_returned_date_sk INT,
            sr_return_time_sk INT,
            sr_item_sk INT,
            sr_customer_sk INT,
            sr_cdemo_sk INT,
            sr_hdemo_sk INT,
            sr_addr_sk INT,
            sr_store_sk INT,
            sr_reason_sk INT,
            sr_ticket_number INT,
            sr_return_quantity INT,
            sr_return_amt DECIMAL(7,2),
            sr_return_tax DECIMAL(7,2),
            sr_return_amt_inc_tax DECIMAL(7,2),
            sr_fee DECIMAL(7,2),
            sr_return_ship_cost DECIMAL(7,2),
            sr_refunded_cash DECIMAL(7,2),
            sr_reversed_charge DECIMAL(7,2),
            sr_store_credit DECIMAL(7,2),
            sr_net_loss DECIMAL(7,2)
        )
    ".

Definition catalog_sales : string := "
        CREATE TABLE IF NOT EXISTS catalog_sales (
            cs_sold_date_sk INT,
            cs_sold_time_sk INT,
            cs_ship_date_sk INT,
            cs_bill_customer_sk INT,
            cs_bill_cdemo_sk INT,
            cs_bill_hdemo_sk INT,
            cs_bill_addr_sk INT,
            cs_ship_customer_sk INT,
            cs_ship_cdemo_sk INT,
            cs_ship_hdemo_sk INT,
            cs_ship_addr_sk INT,
            cs_call_center_sk INT,
            cs_catalog_page_sk INT,
            cs_ship_mode_sk INT,
            cs_warehouse_sk INT,
            cs_item_sk INT,
            cs_promo_sk INT,
            cs_order_number INT,
            cs_quantity INT,
            cs_wholesale_cost DECIMAL(7,2),
            cs_list_price DECIMAL(7,2),
            cs_sales_price DECIMAL(7,2),
            cs_ext_discount_amt DECIMAL(7,2),
            cs_ext_sales_price DECIMAL(7,2),
            cs_ext_wholesale_cost DECIMAL(7,2),
            cs_ext_list_price DECIMAL(7,2),
            cs_ext_tax DECIMAL(7,2),
            cs_coupon_amt DECIMAL(7,2),
            cs_ext_ship_cost DECIMAL(7,2),
            cs_net_paid DECIMAL(7,2),
            cs_net_paid_inc_tax DECIMAL(7,2),
            cs_net_paid_inc_ship DECIMAL(7,2),
            cs_net_paid_inc_ship_tax DECIMAL(7,2),
            cs_net_profit DECIMAL(7,2)
        )
    ".

Definition catalog_returns : string := "
        CREATE TABLE IF NOT EXISTS catalog_returns (
            cr_returned_date_sk INT,
            cr_returned_time_sk INT,
            cr_item_sk INT,
            cr_refunded_customer_sk INT,
            cr_refunded_cdemo_sk INT,
            cr_refunded_hdemo_sk INT,
            cr_refunded_addr_sk INT,
            cr_returning_customer_sk INT,
            cr_returning_cdemo_sk INT,
            cr_returning_hdemo_sk INT,
            cr_returning_addr_sk INT,
            cr_call_center_sk INT,
            cr_catalog_page_sk INT,
            cr_ship_mode_sk INT,
            cr_warehouse_sk INT,
            cr_reason_sk INT,
            cr_order_number INT,
            cr_return_quantity INT,
            cr_return_amount DECIMAL(7,2),
            cr_return_tax DECIMAL(7,2),
            cr_return_amt_inc_tax DECIMAL(7,2),
            cr_fee DECIMAL(7,2),
            cr_return_ship_cost DECIMAL(7,2),
            cr_refunded_cash DECIMAL(7,2),
            cr_reversed_charge DECIMAL(7,2),
            cr_store_credit DECIMAL(7,2),
            cr_net_loss DECIMAL(7,2)
        )
    ".

Definition web_sales : string := "
        CREATE TABLE IF NOT EXISTS web_sales (
            ws_sold_date_sk INT,
            ws_sold_time_sk INT,
            ws_ship_date_sk INT,
            ws_item_sk INT,
            ws_bill_customer_sk INT,
            ws_bill_cdemo_sk INT,
            ws_bill_hdemo_sk INT,
            ws_bill_addr_sk INT,
            ws_ship_customer_sk INT,
            ws_ship_cdemo_sk INT,
            ws_ship_hdemo_sk INT,
            ws_ship_addr_sk INT,
            ws_web_page_sk INT,
            ws_web_site_sk INT,
            ws_ship_mode_sk INT,
            ws_warehouse_sk INT,
            ws_promo_sk INT,
            ws_order_number INT,
            ws_quantity INT,
            ws_wholesale_cost DECIMAL(7,2),
            ws_list_price DECIMAL(7,2),
            ws_sales_price DECIMAL(7,2),
            ws_ext_discount_amt DECIMAL(7,2),
            ws_ext_sales_price DECIMAL(7,2),
            ws_ext_wholesale_cost DECIMAL(7,2),
            ws_ext_list_price DECIMAL(7,2),
            ws_ext_tax DECIMAL(7,2),
            ws_coupon_amt DECIMAL(7,2),
            ws_ext_ship_cost DECIMAL(7,2),
            ws_net_paid DECIMAL(7,2),
            ws_net_paid_inc_tax DECIMAL(7,2),
            ws_net_paid_inc_ship DECIMAL(7,2),
            ws_net_paid_inc_ship_tax DECIMAL(7,2),
            ws_net_profit DECIMAL(7,2)
        )
    ".

Definition web_returns : string := "
        CREATE TABLE IF NOT EXISTS web_returns (
            wr_returned_date_sk INT,
            wr_returned_time_sk INT,
            wr_item_sk INT,
            wr_refunded_customer_sk INT,
            wr_refunded_cdemo_sk INT,
            wr_refunded_hdemo_sk INT,
            wr_refunded_addr_sk INT,
            wr_returning_customer_sk INT,
            wr_returning_cdemo_sk INT,
            wr_returning_hdemo_sk INT,
            wr_returning_addr_sk INT,
            wr_web_page_sk INT,
            wr_reason_sk INT,
            wr_order_number INT,
            wr_return_quantity INT,
            wr_return_amt DECIMAL(7,2),
            wr_return_tax DECIMAL(7,2),
            wr_return_amt_inc_tax DECIMAL(7,2),
            wr_fee DECIMAL(7,2),
            wr_return_ship_cost DECIMAL(7,2),
            wr_refunded_cash DECIMAL(7,2),
            wr_reversed_charge DECIMAL(7,2),
            wr_account_credit DECIMAL(7,2),
            wr_net_loss DECIMAL(7,2)
        )
    ".

Definition inventory : string := "
        CREATE TABLE IF NOT EXISTS inventory (
            inv_date_sk INT,
            inv_item_sk INT,
            inv_warehouse_sk INT,
            inv_quantity_on_hand INT
        )
    ".

Definition store : string := "
        CREATE TABLE IF NOT EXISTS store (
            s_store_sk INT,
            s_store_id STRING,
            s_rec_start_date DATE,
            s_rec_end_date DATE,
            s_closed_date_sk INT,
            s_store_name STRING,
            s_number_employees INT,
            s_floor_space INT,
            s_hours STRING,
            s_manager STRING,
            s_market_id INT,
            s_geography_class STRING,
            s_market_desc STRING,
            s_market_manager STRING,
            s_division_id INT,
            s_division_name STRING,
            s_company_id INT,
            s_company_name STRING,
            s_street_number STRING,
            s_street_name STRING,
            s_street_type STRING,
            s_suite_number STRING,
            s_city STRING,
            s_county STRING,
            s_state STRING,
            s_zip STRING,
            s_country STRING,
            s_gmt_offset DECIMAL(5,2),
            s_tax_precentage DECIMAL(5,2)
        )
    ".

Definition customer : string := "
        CREATE TABLE IF NOT EXISTS customer (
            c_customer_sk INT,
            c_customer_id STRING,
            c_current_cdemo_sk INT,
            c_current_hdemo_sk INT,
            c_current_addr_sk INT,
            c_first_shipto_date_sk INT,
            c_first_sales_date_sk INT,
            c_salutation STRING,
            c_first_name STRING,
            c_last_name STRING,
            c_preferred_cust_flag STRING,
            c_birth_day INT,
            c_birth_month INT,
            c_birth_year INT,
            c_birth_country STRING,
            c_login STRING,
            c_email_address STRING,
            c_last_review_date_sk INT
        )
    ".

Definition customer_address : string := "
        CREATE TABLE IF NOT EXISTS customer_address (
            ca_address_sk INT,
            ca_address_id STRING,
            ca_street_number STRING,
            ca_street_name STRING,
            ca_street_type STRING,
            ca_suite_number STRING,
            ca_city STRING,
            ca_county STRING,
            ca_state STRING,
            ca_zip STRING,
            ca_country STRING,
            ca_gmt_offset DECIMAL(5,2),
            ca_location_type STRING
        )
    ".

Definition customer_demographics : string := "
        CREATE TABLE IF NOT EXISTS customer_demographics (
            cd_demo_sk INT,
            cd_gender STRING,
            cd_marital_status STRING,
            cd_education_status STRING,
            cd_purchase_estimate INT,
            cd_credit_rating STRING,
            cd_dep_count INT,
            cd_dep_employed_count INT,
            cd_dep_college_count INT
        )
    ".

Definition date_dim : string := "
        CREATE TABLE IF NOT EXISTS date_dim (
            d_date_sk INT,
            d_date_id STRING,
            d_date DATE,
            d_month_seq INT,
            d_week_seq INT,
            d_quarter_seq INT,
            d_year INT,
            d_dow INT,
            d_moy INT,
            d_dom INT,
            d_qoy INT,
            d_fy_year INT,
            d_fy_quarter_seq INT,
            d_fy_week_seq INT,
            d_day_name STRING,
            d_quarter_name STRING,
            d_holiday STRING,
            d_weekend STRING,
            d_following_holiday STRING,
            d_first_dom INT,
            d_last_dom INT,
            d_same_day_ly INT,
            d_same_day_lq INT,
            d_current_day STRING,
            d_current_week STRING,
            d_current_month STRING,
            d_current_quarter STRING,
            d_current_year STRING
        )
    ".

Definition household_demographics : string := "
        CREATE TABLE IF NOT EXISTS household_demographics (
            hd_demo_sk INT,
            hd_income_band_sk INT,
            hd_buy_potential STRING,
            hd_dep_count INT,
            hd_vehicle_count INT
        )
    ".

Definition item : string := "
        CREATE TABLE IF NOT EXISTS item (
            i_item_sk INT,
            i_item_id STRING,
            i_rec_start_date DATE,
            i_rec_end_date DATE,
            i_item_desc STRING,
            i_current_price DECIMAL(7,2),
            i_wholesale_cost DECIMAL(7,2),
            i_brand_id INT,
            i_brand STRING,
            i_class_id INT,
            i_class STRING,
            i_category_id INT,
            i_category STRING,
            i_manufact_id INT,
            i_manufact STRING,
            i_size STRING,
            i_formulation STRING,
            i_color STRING,
            i_units STRING,
            i_container STRING,
            i_manager_id INT,
            i_product_name STRING
        )
    ".

Definition promotion : string := "
        CREATE TABLE IF NOT EXISTS promotion (
            p_promo_sk INT,
            p_promo_id STRING,
            p_start_date_sk INT,
            p_end_date_sk INT,
            p_item_sk INT,
            p_cost DECIMAL(15,2),
            p_response_target INT,
            p_promo_name STRING,
            p_channel_dmail STRING,
            p_channel_email STRING,
            p_channel_catalog STRING,
            p_channel_tv STRING,
            p_channel_radio STRING,
            p_channel_press STRING,
            p_channel_event STRING,
            p_channel_demo STRING,
            p_channel_details STRING,
            p_purpose STRING,
            p_discount_active STRING
        )
    ".

Definition time_dim : string := "
        CREATE TABLE IF NOT EXISTS time_dim (
            t_time_sk INT,
            t_time_id STRING,
            t_time INT,
            t_hour INT,
            t_minute INT,
            t_second INT,
            t_am_pm STRING,
            t_shift STRING,
            t_sub_shift STRING,
            t_meal_time STRING
        )
    ".

Definition warehouse : string := "
        CREATE TABLE IF NOT EXISTS warehouse (
            w_warehouse_sk INT,
            w_warehouse_id STRING,
            w_warehouse_name STRING,
            w_warehouse_sq_ft INT,
            w_street_number STRING,
            w_street_name STRING,
            w_street_type STRING,
            w_suite_number STRING,
            w_city STRING,
            w_county STRING,
            w_state STRING,
            w_zip STRING,
            w_country STRING,
            w_gmt_offset DECIMAL(5,2)
        )
    ".

Definition web_site : string := "
        CREATE TABLE IF NOT EXISTS web_site (
            web_site_sk INT,
            web_site_id STRING,
            web_rec_start_date DATE,
            web_rec_end_date DATE,
            web_name STRING,
            web_open_date_sk INT,
            web_close_date_sk INT,
            web_class STRING,
            web_manager STRING,
            web_mkt_id INT,
            web_mkt_class STRING,
            web_mkt_desc STRING,
            web_market_manager STRING,
            web_company_id INT,
            web_company_name STRING,
            web_street_number STRING,
            web_street_name STRING,
            web_street_type STRING,
            web_suite_number STRING,
            web_city STRING,
            web_county STRING,
            web_state STRING,
            web_zip STRING,
            web_country STRING,
            web_gmt_offset DECIMAL(5,2),
            web_tax_percentage DECIMAL(5,2)
        )
    ".

Definition web_page : string := "
        CREATE TABLE IF NOT EXISTS web_page (
            wp_web_page_sk INT,
            wp_web_page_id STRING,
            wp_rec_start_date DATE,
            wp_rec_end_date DATE,
            wp_creation_date_sk INT,
            wp_access_date_sk INT,
            wp_autogen_flag STRING,
            wp_customer_sk INT,
            wp_url STRING,
            wp_type STRING,
            wp_char_count INT,
            wp_link_count INT,
            wp_image_count INT,
            wp_max_ad_count INT
        )
    ".

Definition catalog_page : string := "
        CREATE TABLE IF NOT EXISTS catalog_page (
            cp_catalog_page_sk INT,
            cp_catalog_page_id STRING,
            cp_start_date_sk INT,
            cp_end_date_sk INT,
            cp_department STRING,
            cp_catalog_number INT,
            cp_catalog_page_number INT,
            cp_description STRING,
            cp_type STRING
        )
    ".

Definition call_center : string := "
        CREATE TABLE IF NOT EXISTS call_center (
            cc_call_center_sk INT,
            cc_call_center_id STRING,
            cc_rec_start_date DATE,
            cc_rec_end_date DATE,
            cc_closed_date_sk INT,
            cc_open_date_sk INT,
            cc_name STRING,
            cc_class STRING,
            cc_employees INT,
            cc_sq_ft INT,
            cc_hours STRING,
            cc_manager STRING,
            cc_mkt_id INT,
            cc_mkt_class STRING,
            cc_mkt_desc STRING,
            cc_market_manager STRING,
            cc_division INT,
            cc_division_name STRING,
            cc_company INT,
            cc_company_name STRING,
            cc_street_number STRING,
            cc_street_name STRING,
            cc_street_type STRING,
            cc_suite_number STRING,
            cc_city STRING,
            cc_county STRING,
            cc_state STRING,
            cc_zip STRING,
            cc_country STRING,
            cc_gmt_offset DECIMAL(5,2),
            cc_tax_percentage DECIMAL(5,2)
        )
    ".

Definition income_band : string := "
        CREATE TABLE IF NOT EXISTS income_band (
            ib_income_band_sk INT,
            ib_lower_bound INT,
            ib_upper_bound INT
        )
    ".

Definition reason : string := "
        CREATE TABLE IF NOT EXISTS reason (
            r_reason_sk INT,
            r_reason_id STRING,
            r_reason_desc STRING
        )
    ".

Definition ship_mode : string := "
        CREATE TABLE IF NOT EXISTS ship_mode (
            sm_ship_mode_sk INT,
            sm_ship_mode_id STRING,
            sm_type STRING,
            sm_code STRING,
            sm_carrier STRING,
            sm_contract STRING
        )
    ".

End TpcDs.

(** ** The functions of the script *)

Section Script.

Variable env : Env.

Definition os_path_exists (path : string) : Py bool :=
  call (fun h => path_exists env h path) (PathExists path).

Definition open_and_read (path : string) : Py string :=
  r <- call (fun h => open_read env h path) (OpenRead path) ;;
  of_result r.

Definition sqlglot_transpile (query read write : string) : Py (list string) :=
  r <- call (fun h => transpile env h query read write)
            (Transpile query read write) ;;
  of_result r.

Definition builder_getOrCreate : Py session :=
  r <- call (get_or_create env) GetOrCreate ;;
  of_status r ;;
  ret SparkSession.

Definition spark_sql (_ : session) (stmt : string) : Py unit :=
  r <- call (fun h => sql env h stmt) (Sql stmt) ;;
  of_status r.

Definition explainString (_ : session) (query : string) : Py string :=
  r <- call (fun h => explain_string env h query) (ExplainString query) ;;
  of_result r.

Definition spark_stop (_ : session) : Py unit := emit Stop.

(** [int(s)]; the message of the [ValueError] is never looked at. *)
Definition int (s : string) : Py Z :=
  match PyStr.to_int (int_max_str_digits env) s with
  | Some n => ret n
  | None =>
      raise (Exception (Error ValueError
        ("invalid literal for int() with base 10: '" ++ s ++ "'")))
  end.

Definition get_query_path (benchmark : string) (query_number : Z) : Py string :=
  let script_dir := script_dir env in
  if benchmark =? "tpc-h" then
    ret (OsPath.join script_dir
           ["queries-tpc-h"; PyStr.of_int query_number ++ ".sql"])
  else if benchmark =? "tpc-ds" then
    ret (OsPath.join script_dir
           ["queries-tpc-ds"; "query" ++ PyStr.of_int query_number ++ ".sql"])
  else
    raise (Exception (Error ValueError
      ("Unknown benchmark: " ++ benchmark ++ ". Use 'tpc-h' or 'tpc-ds'."))).

Definition read_query (filepath : string) : Py string :=
  found <- os_path_exists filepath ;;
  if negb found then
    raise (Exception (Error FileNotFoundError
      ("Query file not found: " ++ filepath)))
  else
    open_and_read filepath.

Definition translate_to_spark (query : string) (source_dialect : string)
  : Py string :=
  try_except
    (translated <- sqlglot_transpile query source_dialect "spark" ;;
     ret (String.concat PyStr.nl translated))
    (fun _ => true)
    (fun e => raise (Exception (Error RuntimeError
                ("Failed to translate query: " ++ msg e)))).

Definition get_physical_plan (spark : session) (query : string) : Py string :=
  try_except
    (spark_sql spark query ;;
     explainString spark query)
    (fun _ => true)
    (fun e => raise (Exception (Error RuntimeError
                ("Failed to get physical plan: " ++ msg e)))).

Definition create_spark_session : Py session := builder_getOrCreate.

Definition create_tpc_h_tables (spark : session) : Py unit :=
  spark_sql spark TpcH.nation ;;
  spark_sql spark TpcH.region ;;
  spark_sql spark TpcH.part ;;
  spark_sql spark TpcH.supplier ;;
  spark_sql spark TpcH.partsupp ;;
  spark_sql spark TpcH.customer ;;
  spark_sql spark TpcH.orders ;;
  spark_sql spark TpcH.lineitem.

Definition create_tpc_ds_tables (spark : session) : Py unit :=
  spark_sql spark TpcDs.store_sales ;;
  spark_sql spark TpcDs.store_returns ;;
  spark_sql spark TpcDs.catalog_sales ;;
  spark_sql spark TpcDs.catalog_returns ;;
  spark_sql spark TpcDs.web_sales ;;
  spark_sql spark TpcDs.web_returns ;;
  spark_sql spark TpcDs.inventory ;;
  spark_sql spark TpcDs.store ;;
  spark_sql spark TpcDs.customer ;;
  spark_sql spark TpcDs.customer_address ;;
  spark_sql spark TpcDs.customer_demographics ;;
  spark_sql spark TpcDs.date_dim ;;
  spark_sql spark TpcDs.household_demographics ;;
  spark_sql spark TpcDs.item ;;
  spark_sql spark TpcDs.promotion ;;
  spark_sql spark TpcDs.time_dim ;;
  spark_sql spark TpcDs.warehouse ;;
  spark_sql spark TpcDs.web_site ;;
  spark_sql spark TpcDs.web_page ;;
  spark_sql spark TpcDs.catalog_page ;;
  spark_sql spark TpcDs.call_center ;;
  spark_sql spark TpcDs.income_band ;;
  spark_sql spark TpcDs.reason ;;
  spark_sql spark TpcDs.ship_mode.

(** The line of sixty [=] printed around the section titles. *)
Definition rule : string := PyStr.mul "=" 60.

Definition main (argv : list string) : Py unit :=
  if negb (length argv =? 3)%nat then
    print __doc__ ;;
    sys_exit 1
  else
    let benchmark := PyStr.lower (nth 1 argv "") in
    query_number <-
      try_except
        (int (nth 2 argv ""))
        (exc_class_eqb ValueError)
        (fun _ =>
           print ("Error: Query number must be an integer, got '"
                    ++ nth 2 argv "" ++ "'") ;;
           sys_exit 1) ;;
    (if negb (existsb (String.eqb benchmark) ["tpc-h"; "tpc-ds"]) then
       print ("Error: Benchmark must be 'tpc-h' or 'tpc-ds', got '"
                ++ benchmark ++ "'") ;;
       sys_exit 1
     else ret tt) ;;
    query_path <- get_query_path benchmark query_number ;;
    print ("Reading query from: " ++ query_path) ;;
    original_query <-
      try_except
        (read_query query_path)
        (exc_class_eqb FileNotFoundError)
        (fun e => print ("Error: " ++ msg e) ;; sys_exit 1) ;;
    print (PyStr.nl ++ rule) ;;
    print "ORIGINAL QUERY:" ;;
    print rule ;;
    print original_query ;;
    print (PyStr.nl ++ rule) ;;
    print "TRANSLATED TO SPARK SQL:" ;;
    print rule ;;
    spark_query <-
      try_except
        (spark_query <- translate_to_spark original_query "duckdb" ;;
         print spark_query ;;
         ret spark_query)
        (exc_class_eqb RuntimeError)
        (fun e => print ("Error: " ++ msg e) ;; sys_exit 1) ;;
    print (PyStr.nl ++ rule) ;;
    print "SPARK PHYSICAL PLAN:" ;;
    print rule ;;
    set_spark None ;;
    try_finally
      (try_except
         (spark <- create_spark_session ;;
          set_spark (Some spark) ;;
          (if benchmark =? "tpc-h" then create_tpc_h_tables spark
           else create_tpc_ds_tables spark) ;;
          plan <- get_physical_plan spark spark_query ;;
          print plan)
         (fun _ => true)
         (fun e => print ("Error getting physical plan: " ++ msg e) ;;
                   sys_exit 1))
      (spark <- get_spark ;;
       match spark with
       | Some spark => spark_stop spark
       | None => ret tt
       end).

End Script.

(** ** The process *)

Definition initial : state := State [] None.

(** What the interpreter makes of [main()]: the exit status and the trace.
    An uncaught exception is reported on standard error and gives status 1. *)
Definition run (env : Env) (argv : list string) : Z * trace :=
  match main env argv initial with
  | (Ret _, s) => (0%Z, events s)
  | (Raise (SystemExit code), s) => (code, events s)
  | (Raise (Exception e), s) => (1%Z, (events s ++ [Traceback e])%list)
  end.

Definition exit_status (env : Env) (argv : list string) : Z :=
  fst (run env argv).

Definition run_trace (env : Env) (argv : list string) : trace :=
  snd (run env argv).

(** Standard output: every [print] writes its text and a newline. *)
Fixpoint stdout (t : trace) : string :=
  match t with
  | [] => ""
  | Print text :: t' => text ++ PyStr.nl ++ stdout t'
  | _ :: t' => stdout t'
  end.

(** ** The runs of the script

    [Run env argv status t] lists the ways a run can go: one constructor
    per path through [main], with the answers of the outside world that
    select the path and the trace the path leaves. *)

Section Runs.

Variable env : Env.

(** The statements [create_tpc_h_tables] and [create_tpc_ds_tables] send,
    in order. *)
Definition tables (benchmark : string) : list string :=
  if benchmark =? "tpc-h" then
    [TpcH.nation; TpcH.region; TpcH.part; TpcH.supplier; TpcH.partsupp;
     TpcH.customer; TpcH.orders; TpcH.lineitem]
  else
    [TpcDs.store_sales; TpcDs.store_returns; TpcDs.catalog_sales;
     TpcDs.catalog_returns; TpcDs.web_sales; TpcDs.web_returns;
     TpcDs.inventory; TpcDs.store; TpcDs.customer; TpcDs.customer_address;
     TpcDs.customer_demographics; TpcDs.date_dim;
     TpcDs.household_demographics; TpcDs.item; TpcDs.promotion;
     TpcDs.time_dim; TpcDs.warehouse; TpcDs.web_site; TpcDs.web_page;
     TpcDs.catalog_page; TpcDs.call_center; TpcDs.income_band; TpcDs.reason;
     TpcDs.ship_mode].

(** Statements that Spark accepted. *)
Definition ok_sql (stmts : list string) : trace :=
  map (fun stmt => Sql stmt None) stmts.

(** A section title between two rules. *)
Definition title (text : string) : trace :=
  [Print (PyStr.nl ++ rule); Print text; Print rule].

Definition reading (path : string) : event :=
  Print ("Reading query from: " ++ path).

(** The trace up to the point where the query has been read and shown. *)
Definition loaded (path query : string) : trace :=
  ([reading path; PathExists path true; OpenRead path (inr query)]
     ++ title "ORIGINAL QUERY:"
     ++ [Print query]
     ++ title "TRANSLATED TO SPARK SQL:")%list.

(** The trace up to the point where the translation has been shown. *)
Definition translated (path query : string) (parts : list string) : trace :=
  (loaded path query
     ++ [Transpile query "duckdb" "spark" (inr parts);
         Print (String.concat PyStr.nl parts)]
     ++ title "SPARK PHYSICAL PLAN:")%list.

Definition plan_error (text : string) : event :=
  Print ("Error getting physical plan: " ++ text).

(** The last block of [main], started with history [h]. *)
Inductive plan_run (h : trace) (benchmark query : string)
  : Z -> trace -> Prop :=
| plan_session_fails e :
    get_or_create env h = Some e ->
    plan_run h benchmark query 1
      [GetOrCreate (Some e); plan_error (msg e)]
| plan_table_fails done stmt rest e :
    get_or_create env h = None ->
    tables benchmark = (done ++ stmt :: rest)%list ->
    sql env (h ++ GetOrCreate None :: ok_sql done)%list stmt = Some e ->
    plan_run h benchmark query 1
      (GetOrCreate None :: ok_sql done
         ++ [Sql stmt (Some e); plan_error (msg e); Stop])%list
| plan_sql_fails e :
    get_or_create env h = None ->
    sql env (h ++ GetOrCreate None :: ok_sql (tables benchmark))%list query
      = Some e ->
    plan_run h benchmark query 1
      (GetOrCreate None :: ok_sql (tables benchmark)
         ++ [Sql query (Some e);
             plan_error ("Failed to get physical plan: " ++ msg e);
             Stop])%list
| plan_explain_fails e :
    get_or_create env h = None ->
    sql env (h ++ GetOrCreate None :: ok_sql (tables benchmark))%list query
      = None ->
    explain_string env
      (h ++ GetOrCreate None :: ok_sql (tables benchmark)
         ++ [Sql query None])%list query = inl e ->
    plan_run h benchmark query 1
      (GetOrCreate None :: ok_sql (tables benchmark)
         ++ [Sql query None; ExplainString query (inl e);
             plan_error ("Failed to get physical plan: " ++ msg e);
             Stop])%list
| plan_done plan :
    get_or_create env h = None ->
    sql env (h ++ GetOrCreate None :: ok_sql (tables benchmark))%list query
      = None ->
    explain_string env
      (h ++ GetOrCreate None :: ok_sql (tables benchmark)
         ++ [Sql query None])%list query = inr plan ->
    plan_run h benchmark query 0
      (GetOrCreate None :: ok_sql (tables benchmark)
         ++ [Sql query None; ExplainString query (inr plan);
             Print plan; Stop])%list.

(** The arguments pass the checks of [main]: the benchmark, lowered, is
    [benchmark], the query number is [number], and the query file is
    [path]. *)
Definition accepted (argv : list string) (benchmark : string) (number : Z)
           (path : string) : Prop :=
  exists prog a1 a2,
    argv = [prog; a1; a2]
    /\ benchmark = PyStr.lower a1
    /\ PyStr.to_int (int_max_str_digits env) a2 = Some number
    /\ existsb (String.eqb benchmark) ["tpc-h"; "tpc-ds"] = true
    /\ forall s, get_query_path env benchmark number s = (Ret path, s).

Inductive Run (argv : list string) : Z -> trace -> Prop :=
| run_usage :
    length argv <> 3%nat ->
    Run argv 1 [Print __doc__]
| run_not_int prog a1 a2 :
    argv = [prog; a1; a2] ->
    PyStr.to_int (int_max_str_digits env) a2 = None ->
    Run argv 1
      [Print ("Error: Query number must be an integer, got '" ++ a2 ++ "'")]
| run_unknown_benchmark prog a1 a2 number :
    argv = [prog; a1; a2] ->
    PyStr.to_int (int_max_str_digits env) a2 = Some number ->
    existsb (String.eqb (PyStr.lower a1)) ["tpc-h"; "tpc-ds"] = false ->
    Run argv 1
      [Print ("Error: Benchmark must be 'tpc-h' or 'tpc-ds', got '"
                ++ PyStr.lower a1 ++ "'")]
| run_missing benchmark number path :
    accepted argv benchmark number path ->
    path_exists env [reading path] path = false ->
    Run argv 1
      [reading path; PathExists path false;
       Print ("Error: Query file not found: " ++ path)]
| run_vanished benchmark number path e :
    accepted argv benchmark number path ->
    path_exists env [reading path] path = true ->
    open_read env [reading path; PathExists path true] path = inl e ->
    cls e = FileNotFoundError ->
    Run argv 1
      [reading path; PathExists path true; OpenRead path (inl e);
       Print ("Error: " ++ msg e)]
| run_unreadable benchmark number path e :
    accepted argv benchmark number path ->
    path_exists env [reading path] path = true ->
    open_read env [reading path; PathExists path true] path = inl e ->
    cls e <> FileNotFoundError ->
    Run argv 1
      [reading path; PathExists path true; OpenRead path (inl e);
       Traceback e]
| run_untranslated benchmark number path query e :
    accepted argv benchmark number path ->
    path_exists env [reading path] path = true ->
    open_read env [reading path; PathExists path true] path = inr query ->
    transpile env (loaded path query) query "duckdb" "spark" = inl e ->
    Run argv 1
      (loaded path query
         ++ [Transpile query "duckdb" "spark" (inl e);
             Print ("Error: Failed to translate query: " ++ msg e)])%list
| run_planned benchmark number path query parts status t :
    accepted argv benchmark number path ->
    path_exists env [reading path] path = true ->
    open_read env [reading path; PathExists path true] path = inr query ->
    transpile env (loaded path query) query "duckdb" "spark" = inr parts ->
    plan_run (translated path query parts) benchmark
             (String.concat PyStr.nl parts) status t ->
    Run argv status (translated path query parts ++ t)%list.

End Runs.

(** ** Observations on traces *)

(** A call that did not get what it asked for: the file is missing, or
    the collaborator raised. *)
Definition failed (e : event) : bool :=
  match e with
  | PathExists _ found => negb found
  | OpenRead _ (inl _) => true
  | Transpile _ _ _ (inl _) => true
  | GetOrCreate (Some _) => true
  | Sql _ (Some _) => true
  | ExplainString _ (inl _) => true
  | _ => false
  end.

(** No call of the trace failed. *)
Definition clean (t : trace) : bool := forallb (fun e => negb (failed e)) t.

(** A message for the user: a line on standard output, or the report of
    an uncaught exception on standard error. *)
Definition is_message (e : event) : bool :=
  match e with
  | Print _ | Traceback _ => true
  | _ => false
  end.

(** An access to the file system. *)
Definition fs_access (e : event) : bool :=
  match e with
  | PathExists _ _ | OpenRead _ _ => true
  | _ => false
  end.

Definition no_fs_access (t : trace) : bool :=
  forallb (fun e => negb (fs_access e)) t.

(** Whether a Spark session is live, before and after an event. *)
Definition session_after (live : bool) (e : event) : bool :=
  match e with
  | GetOrCreate None => true
  | Stop => false
  | _ => live
  end.

(** Whether a Spark session is live at the end of a trace. *)
Definition session_live (t : trace) : bool := fold_left session_after t false.

(** What happens before the script first turns to Spark. *)
Fixpoint before_session (t : trace) : trace :=
  match t with
  | [] => []
  | GetOrCreate _ :: _ => []
  | e :: t' => e :: before_session t'
  end.

(** The checks at the start of [main] turn the arguments down. *)
Definition rejected (env : Env) (argv : list string) : bool :=
  negb (length argv =? 3)%nat
  || match PyStr.to_int (int_max_str_digits env) (nth 2 argv "") with
     | None => true
     | Some _ =>
         negb (existsb (String.eqb (PyStr.lower (nth 1 argv "")))
                       ["tpc-h"; "tpc-ds"])
     end.

(** A section of standard output: the title between two rules, after an
    empty line. *)
Definition section_header (text : string) : string :=
  PyStr.nl ++ rule ++ PyStr.nl ++ text ++ PyStr.nl ++ rule ++ PyStr.nl.

(** The trace of a run that goes through. *)
Definition completed (benchmark path query : string) (parts : list string)
           (plan : string) : trace :=
  (translated path query parts
     ++ GetOrCreate None :: ok_sql (tables benchmark)
     ++ [Sql (String.concat PyStr.nl parts) None;
         ExplainString (String.concat PyStr.nl parts) (inr plan);
         Print plan; Stop])%list.

(** ** Sample worlds *)

(** A world in which one query file exists and every collaborator does its
    work. *)
Definition sample_world (query_file : string) : Env := {|
  script_dir := "/opt/duckdb-tpc";
  int_max_str_digits := 4300;
  path_exists := fun _ path => String.eqb path query_file;
  open_read := fun _ _ => inr "SELECT 1";
  transpile := fun _ _ _ _ => inr ["SELECT"; "  1"];
  get_or_create := fun _ => None;
  sql := fun _ _ => None;
  explain_string := fun _ _ => inr "== Physical Plan =="
|}.

(** The same world, except that Spark cannot plan any query. *)
Definition no_plan_world (query_file : string) : Env := {|
  script_dir := "/opt/duckdb-tpc";
  int_max_str_digits := 4300;
  path_exists := fun _ path => String.eqb path query_file;
  open_read := fun _ _ => inr "SELECT 1";
  transpile := fun _ _ _ _ => inr ["SELECT"; "  1"];
  get_or_create := fun _ => None;
  sql := fun _ _ => None;
  explain_string := fun _ _ => inl (Error OtherException "AnalysisException")
|}.

(** ** Sending statements *)

Section Sending.

Variable env : Env.

(** Sending a list of statements either gets through, or stops at the
    first statement Spark refuses. *)
Inductive sent (h : trace) (stmts : list string)
  : outcome unit -> trace -> Prop :=
| sent_all : sent h stmts (Ret tt) (ok_sql stmts)
| sent_until done stmt rest e :
    stmts = (done ++ stmt :: rest)%list ->
    sql env (h ++ ok_sql done)%list stmt = Some e ->
    sent h stmts (Raise (Exception e))
         (ok_sql done ++ [Sql stmt (Some e)])%list.

Definition sends (stmts : list string) (m : Py unit) : Prop :=
  forall s, exists r t,
    m s = (r, State (events s ++ t)%list (spark s))
    /\ sent (events s) stmts r t.

End Sending.

(** ** Messages *)

Definition not_found_message (path : string) : string :=
  "Error: Query file not found: " ++ path.

Definition not_integer_message (arg : string) : string :=
  "Error: Query number must be an integer, got '" ++ arg ++ "'".

Definition unknown_benchmark_message (benchmark : string) : string :=
  "Error: Benchmark must be 'tpc-h' or 'tpc-ds', got '" ++ benchmark ++ "'".

(** ** Aborted runs *)

(** A run that gets past the checks on the arguments and does not exit
    with status 0 has exactly one failed call, followed by one message and,
    when a session was opened, by the release of the session. *)
Definition aborted (t : trace) : Prop :=
  exists pre e0 m after,
    t = (pre ++ e0 :: m :: after)%list
    /\ clean pre = true
    /\ failed e0 = true
    /\ is_message m = true
    /\ (after = [] \/ after = [Stop]).

(** ** Two worlds with the same inputs *)

(** The script sits in the same directory, the interpreter has the same
    limit on numerals, and the file system and the translator give the
    same answers. *)
Definition same_inputs (e1 e2 : Env) : Prop :=
  script_dir e1 = script_dir e2
  /\ int_max_str_digits e1 = int_max_str_digits e2
  /\ (forall h path, path_exists e1 h path = path_exists e2 h path)
  /\ (forall h path, open_read e1 h path = open_read e2 h path)
  /\ (forall h query read write,
        transpile e1 h query read write = transpile e2 h query read write).

(** ** Sample runs *)

Definition script_name : string := "explain_query_spark.py".

(** The first query of TPC-H, in a world that has its file. *)
Definition tpc_h_1 : list string := [script_name; "tpc-h"; "1"].

Definition tpc_h_1_file : string := "/opt/duckdb-tpc/queries-tpc-h/1.sql".

(** A query number below zero, in a world that has a file of that name. *)
Definition tpc_h_minus_5 : list string := [script_name; "tpc-h"; "-5"].

Definition tpc_h_minus_5_file : string :=
  "/opt/duckdb-tpc/queries-tpc-h/-5.sql".

(** A query number that no file stands for. *)
Definition tpc_ds_999 : list string := [script_name; "TPC-DS"; "999"].

Definition tpc_ds_999_file : string :=
  "/opt/duckdb-tpc/queries-tpc-ds/query999.sql".

(** An unknown benchmark, with and without a query number. *)
Definition tpc_x_1 : list string := [script_name; "tpc-x"; "1"].

Definition tpc_x_abc : list string := [script_name; "tpc-x"; "abc"].

(** ** More observations on traces *)

Definition is_stop (e : event) : bool :=
  match e with Stop => true | _ => false end.

Definition is_traceback (e : event) : bool :=
  match e with Traceback _ => true | _ => false end.

Definition is_transpile (e : event) : bool :=
  match e with Transpile _ _ _ _ => true | _ => false end.

Definition is_get_or_create (e : event) : bool :=
  match e with GetOrCreate _ => true | _ => false end.

Definition is_explain (e : event) : bool :=
  match e with ExplainString _ _ => true | _ => false end.

(** How many events of a kind a trace has. *)
Definition count (kind : event -> bool) (t : trace) : nat :=
  length (filter kind t).

(** No event of the trace is of the kind. *)
Definition none_of (kind : event -> bool) (t : trace) : bool :=
  forallb (fun e => negb (kind e)) t.

(** What a run shows when [open] or [read] raises [e]: the handler of
    [main] prints a [FileNotFoundError]; anything else escapes. *)
Definition read_failure_report (e : error) : event :=
  if exc_class_eqb FileNotFoundError (cls e)
  then Print ("Error: " ++ msg e)
  else Traceback e.

(** How [main] answers a failed call [e] with the event [m]: an error of
    [open] or [read] as [read_failure_report] says, every other failure
    with a line on standard output that starts with the word Error. *)
Definition reported (e m : event) : Prop :=
  match e with
  | OpenRead _ (inl err) => m = read_failure_report err
  | _ => exists text, m = Print text /\ prefix "Error" text = true
  end.

(** The directory of the query files of a benchmark. *)
Definition query_dir (benchmark : string) : string := "queries-" ++ benchmark.

(** A world in which the query file exists and cannot be opened. *)
Definition locked_world (query_file : string) : Env := {|
  script_dir := "/opt/duckdb-tpc";
  int_max_str_digits := 4300;
  path_exists := fun _ path => String.eqb path query_file;
  open_read := fun _ _ =>
    inl (Error OtherException "[Errno 13] Permission denied");
  transpile := fun _ _ _ _ => inr ["SELECT"; "  1"];
  get_or_create := fun _ => None;
  sql := fun _ _ => None;
  explain_string := fun _ _ => inr "== Physical Plan =="
|}.

(** A world in which the translator refuses every query. *)
Definition no_translation_world (query_file : string) : Env := {|
  script_dir := "/opt/duckdb-tpc";
  int_max_str_digits := 4300;
  path_exists := fun _ path => String.eqb path query_file;
  open_read := fun _ _ => inr "SELEC 1";
  transpile := fun _ _ _ _ =>
    inl (Error ValueError "Invalid expression / Unexpected token");
  get_or_create := fun _ => None;
  sql := fun _ _ => None;
  explain_string := fun _ _ => inr "== Physical Plan =="
|}.

(** * Proofs *)

Local Open Scope list_scope.

#[local] Arguments rule : simpl never.
#[local] Arguments create_tpc_h_tables : simpl never.
#[local] Arguments create_tpc_ds_tables : simpl never.
#[local] Opaque __doc__.

(** ** Strings and paths *)

Lemma lower_ascii_idempotent c :
  PyStr.lower_ascii (PyStr.lower_ascii c) = PyStr.lower_ascii c.
Proof. destruct c as [[] [] [] [] [] [] [] []]; reflexivity. Qed.

Lemma lower_idempotent s : PyStr.lower (PyStr.lower s) = PyStr.lower s.
Proof.
  induction s as [|c s IH]; cbn; [reflexivity|].
  rewrite lower_ascii_idempotent, IH. reflexivity.
Qed.

Lemma append_assoc (a b c : string) : ((a ++ b) ++ c = a ++ (b ++ c))%string.
Proof. induction a as [|x a IH]; cbn; [reflexivity | now rewrite IH]. Qed.

Lemma append_empty_r (a : string) : (a ++ "")%string = a.
Proof. induction a as [|x a IH]; cbn; [reflexivity | now rewrite IH]. Qed.

Lemma prefix_nil (s : string) : prefix "" s = true.
Proof. destruct s; reflexivity. Qed.

Lemma prefix_append (a b : string) : prefix a (a ++ b)%string = true.
Proof.
  induction a as [|x a IH]; cbn; [apply prefix_nil|].
  destruct (ascii_dec x x); [exact IH | congruence].
Qed.

Lemma contains_prefix (sub s : string) :
  prefix sub s = true -> PyStr.contains sub s = true.
Proof. intros H. destruct s; cbn in *; rewrite H; reflexivity. Qed.

(** A string contains each of its pieces. *)
Lemma contains_middle (a sub b : string) :
  PyStr.contains sub (a ++ sub ++ b)%string = true.
Proof.
  induction a as [|x a IH].
  - cbn [append]. apply contains_prefix, prefix_append.
  - cbn [append PyStr.contains]. rewrite IH. apply orb_true_r.
Qed.

Lemma of_int_no_sep (n : Z) (s : string) :
  prefix OsPath.sep (PyStr.of_int n ++ s)%string = false.
Proof.
  unfold PyStr.of_int, OsPath.sep.
  destruct n as [|p|p]; cbn; try reflexivity;
    destruct (Pos.to_uint p); reflexivity.
Qed.

Lemma endswith_sep_append (a : string) (c : ascii) (b : string) :
  OsPath.endswith_sep (a ++ String c b)%string
  = OsPath.endswith_sep (String c b).
Proof.
  induction a as [|x a IH]; [reflexivity|].
  cbn [append]. rewrite <- IH.
  destruct (a ++ String c b)%string eqn:E; [|reflexivity].
  destruct a; discriminate.
Qed.

Lemma eqb_append_nonempty (a : string) (c : ascii) (b : string) :
  ((a ++ String c b) =? "")%string = false.
Proof. destruct a; reflexivity. Qed.

(** Joining two relative components one after the other is joining their
    concatenation, when the first one does not end with a separator. *)
Lemma join_relative (dir name file : string) (c : ascii) :
  prefix OsPath.sep (name ++ String c "")%string = false ->
  prefix OsPath.sep file = false ->
  Ascii.eqb c "/" = false ->
  OsPath.join dir [(name ++ String c "")%string; file]
  = OsPath.join dir [(name ++ String c "" ++ OsPath.sep ++ file)%string].
Proof.
  intros Hname Hfile Hc. unfold OsPath.join. cbn [fold_left].
  assert (Hwhole : prefix OsPath.sep
                     (name ++ String c "" ++ OsPath.sep ++ file)%string = false).
  { destruct name as [|x name]; cbn [prefix append OsPath.sep] in *.
    - destruct (ascii_dec "/" c) as [<-|]; [discriminate|reflexivity].
    - destruct (ascii_dec "/" x); [|reflexivity].
      rewrite prefix_nil in Hname. discriminate. }
  unfold OsPath.join_step at 2 3. rewrite Hname, Hwhole.
  unfold OsPath.join_step. rewrite Hfile.
  destruct ((dir =? "")%string || OsPath.endswith_sep dir).
  - rewrite <- append_assoc, eqb_append_nonempty, endswith_sep_append.
    cbn [OsPath.endswith_sep orb]. rewrite Hc.
    rewrite !append_assoc. reflexivity.
  - rewrite <- !append_assoc, eqb_append_nonempty, endswith_sep_append.
    cbn [OsPath.endswith_sep orb]. rewrite Hc.
    rewrite !append_assoc. reflexivity.
Qed.

(** ** Table creation *)

Section Tables.

Variable env : Env.

Lemma spark_sql_run sp stmt s :
  spark_sql env sp stmt s =
  match sql env (events s) stmt with
  | None => (Ret tt, State (events s ++ [Sql stmt None]) (spark s))
  | Some e => (Raise (Exception e),
               State (events s ++ [Sql stmt (Some e)]) (spark s))
  end.
Proof.
  unfold spark_sql, call. cbn. destruct (sql env (events s) stmt); reflexivity.
Qed.

Lemma sends_last sp stmt : sends env [stmt] (spark_sql env sp stmt).
Proof.
  intros s. rewrite spark_sql_run.
  destruct (sql env (events s) stmt) as [e|] eqn:Hst.
  - exists (Raise (Exception e)), [Sql stmt (Some e)]. split; [reflexivity|].
    apply sent_until with (done := []) (rest := []); [reflexivity|].
    cbn. rewrite app_nil_r. exact Hst.
  - exists (Ret tt), [Sql stmt None]. split; [reflexivity|].
    apply (sent_all env (events s) [stmt]).
Qed.

Lemma sends_cons sp stmt stmts m :
  sends env stmts m ->
  sends env (stmt :: stmts) (spark_sql env sp stmt ;; m).
Proof.
  intros Hm s. cbn [bind Monad_Py]. rewrite spark_sql_run.
  destruct (sql env (events s) stmt) as [e|] eqn:Hst.
  - exists (Raise (Exception e)), [Sql stmt (Some e)]. split; [reflexivity|].
    apply sent_until with (done := []) (rest := stmts); [reflexivity|].
    cbn. rewrite app_nil_r. exact Hst.
  - destruct (Hm (State (events s ++ [Sql stmt None]) (spark s)))
      as (r & t & Heq & Hsent).
    cbn [events spark] in Heq, Hsent.
    exists r, (Sql stmt None :: t). split.
    + rewrite Heq, <- app_assoc. reflexivity.
    + destruct Hsent as [|done st rest e -> Hrefused].
      * apply (sent_all env (events s) (stmt :: stmts)).
      * apply sent_until with (done := stmt :: done) (rest := rest);
          [reflexivity|].
        cbn. rewrite <- app_assoc in Hrefused. exact Hrefused.
Qed.

Lemma create_tables_run sp benchmark :
  sends env (tables benchmark)
    (if benchmark =? "tpc-h" then create_tpc_h_tables env sp
     else create_tpc_ds_tables env sp).
Proof.
  unfold tables. destruct (benchmark =? "tpc-h").
  - unfold create_tpc_h_tables. repeat apply sends_cons. apply sends_last.
  - unfold create_tpc_ds_tables. repeat apply sends_cons. apply sends_last.
Qed.

End Tables.

(** ** Symbolic execution *)

Ltac script_unfold :=
  cbv beta iota zeta delta
    [main bind ret Monad_Py try_except try_finally print emit call raise
     sys_exit of_result of_status int read_query os_path_exists open_and_read
     translate_to_spark sqlglot_transpile get_physical_plan
     create_spark_session builder_getOrCreate spark_sql explainString
     spark_stop get_spark set_spark initial exc_class_eqb cls
     negb length Nat.eqb nth]; cbn [events spark app].

Ltac script_step :=
  cbv beta iota zeta delta [exc_class_eqb cls negb fst snd];
  cbn [events spark app].

Section Soundness.

Variable env : Env.

Lemma get_query_path_accepted benchmark number :
  existsb (String.eqb benchmark) ["tpc-h"; "tpc-ds"] = true ->
  exists path, forall s, get_query_path env benchmark number s = (Ret path, s).
Proof.
  unfold get_query_path. cbn [existsb].
  destruct (benchmark =? "tpc-h"); [eexists; reflexivity|].
  destruct (benchmark =? "tpc-ds"); [eexists; reflexivity|discriminate].
Qed.

Lemma run_sound argv : Run env argv (exit_status env argv) (run_trace env argv).
Proof.
  unfold exit_status, run_trace, run.
  destruct argv as [|prog [|a1 [|a2 [|a3 argv]]]];
    try (apply run_usage; cbn; lia).
  script_unfold.
  destruct (PyStr.to_int (int_max_str_digits env) a2) as [number|] eqn:Hint;
    script_step.
  2:{ eapply run_not_int; eauto. }
  destruct (existsb (String.eqb (PyStr.lower a1)) ["tpc-h"; "tpc-ds"]) eqn:Hb;
    script_step.
  2:{ eapply run_unknown_benchmark; eauto. }
  destruct (get_query_path_accepted (PyStr.lower a1) number Hb) as [path Hpath].
  rewrite Hpath.
  assert (Hacc : accepted env [prog; a1; a2] (PyStr.lower a1) number path).
  { exists prog, a1, a2. auto. }
  script_step.
  destruct (path_exists env _ path) eqn:Hexists; script_step.
  2:{ eapply run_missing; eauto. }
  destruct (open_read env _ path) as [e|query] eqn:Hread; script_step.
  { destruct e as [[] m]; script_step;
      solve [ eapply run_vanished; eauto
            | eapply run_unreadable; eauto; discriminate ]. }
  destruct (transpile env _ query "duckdb" "spark") as [e|parts] eqn:Htr;
    script_step.
  { eapply run_untranslated; eauto. }
  destruct (get_or_create env _) as [e|] eqn:Hsession; script_step.
  { eapply run_planned; eauto. apply plan_session_fails. exact Hsession. }
  match goal with
  | |- context [(if _ then _ else _) ?s] =>
      destruct (create_tables_run env SparkSession (PyStr.lower a1) s)
        as (r & t & -> & Hsent)
  end.
  script_step.
  cbn [events spark] in Hsent.
  destruct Hsent as [|done stmt rest e Htables Hrefused]; script_step;
    rewrite <- ?app_assoc; cbn [app].
  2:{ eapply run_planned; eauto. eapply plan_table_fails; eauto. }
  destruct (sql env _ (String.concat PyStr.nl parts)) as [e|] eqn:Hsql;
    script_step; rewrite <- ?app_assoc; cbn [app].
  { eapply run_planned; eauto. eapply plan_sql_fails; eauto. }
  destruct (explain_string env _ (String.concat PyStr.nl parts))
    as [e|plan] eqn:Hexplain;
    script_step; rewrite <- ?app_assoc; cbn [app].
  { eapply run_planned; eauto. eapply plan_explain_fails; eauto. }
  eapply run_planned; eauto. eapply plan_done; eauto.
Qed.

End Soundness.

(** ** The path of the query file *)

(** C4: for every query number, [get_query_path] returns the directory of
    the script joined with [queries-tpc-h/<n>.sql] for the benchmark
    [tpc-h], and joined with [queries-tpc-ds/query<n>.sql] for the
    benchmark [tpc-ds]. *)
Theorem get_query_path_templates (env : Env) (n : Z) (s : state) :
  get_query_path env "tpc-h" n s
  = (Ret (OsPath.join (script_dir env)
            [("queries-tpc-h/" ++ PyStr.of_int n ++ ".sql")%string]), s)
  /\ get_query_path env "tpc-ds" n s
     = (Ret (OsPath.join (script_dir env)
               [("queries-tpc-ds/query" ++ PyStr.of_int n ++ ".sql")%string]),
        s).
Proof.
  unfold get_query_path. cbn [String.eqb Ascii.eqb Bool.eqb ret Monad_Py].
  split; f_equal; f_equal.
  - apply (join_relative (script_dir env) "queries-tpc-" _ "h");
      [reflexivity | apply of_int_no_sep | reflexivity].
  - apply (join_relative (script_dir env) "queries-tpc-d"
             ("query" ++ PyStr.of_int n ++ ".sql")%string "s");
      reflexivity.
Qed.

(** ** The benchmark argument *)

(** C9: the benchmark argument is lowered before it is checked and used, so
    a run with the argument in any case is the run with the argument in
    lower case; [TPC-H] and [Tpc-Ds] stand for [tpc-h] and [tpc-ds]. *)
Theorem benchmark_case_insensitive (env : Env) (prog a1 a2 : string) :
  run env [prog; a1; a2] = run env [prog; PyStr.lower a1; a2]
  /\ PyStr.lower "TPC-H" = "tpc-h"
  /\ PyStr.lower "Tpc-Ds" = "tpc-ds".
Proof.
  split; [|split; reflexivity].
  unfold run, main. cbn [length Nat.eqb negb nth].
  rewrite lower_idempotent. reflexivity.
Qed.

(** ** Argument errors *)

Ltac run_unfold := unfold exit_status, run_trace, run; script_unfold.

(** C3, as amended: a query-number argument that [int] does not read is
    turned down with status 1 before any access to the file system; an
    argument that [int] reads as a number of any sign passes the check,
    and with a known benchmark the script goes on to look for the file of
    that number. *)
Theorem query_number_validation (env : Env) (prog a1 a2 : string) :
  (PyStr.to_int (int_max_str_digits env) a2 = None ->
   exit_status env [prog; a1; a2] = 1%Z
   /\ run_trace env [prog; a1; a2] = [Print (not_integer_message a2)]
   /\ no_fs_access (run_trace env [prog; a1; a2]) = true)
  /\ (forall n,
        PyStr.to_int (int_max_str_digits env) a2 = Some n ->
        existsb (String.eqb (PyStr.lower a1)) ["tpc-h"; "tpc-ds"] = true ->
        exists path found rest,
          (forall s, get_query_path env (PyStr.lower a1) n s = (Ret path, s))
          /\ run_trace env [prog; a1; a2]
             = reading path :: PathExists path found :: rest).
Proof.
  split.
  - intros Hint. run_unfold. rewrite Hint. script_step. auto.
  - intros n Hint Hb.
    destruct (get_query_path_accepted env (PyStr.lower a1) n Hb)
      as [path Hpath].
    pose proof (run_sound env [prog; a1; a2]) as Hrun.
    assert (Hsame : forall b m p,
               accepted env [prog; a1; a2] b m p -> p = path).
    { intros b m p (? & ? & ? & [= <- <- <-] & -> & Hm & _ & Hp).
      specialize (Hp initial). specialize (Hpath initial).
      congruence. }
    exists path.
    destruct Hrun as
      [ Hlen | ? ? ? [= <- <- <-] Hnone | ? ? ? ? [= <- <- <-] _ Hunknown
      | b m p Hacc | b m p e Hacc | b m p e Hacc | b m p q e Hacc
      | b m p q parts status t Hacc ];
      try (cbn in Hlen; lia); try congruence;
      rewrite (Hsame _ _ _ Hacc) in *; unfold translated, loaded;
      cbn [app]; eauto.
Qed.

(** C2, as amended: an unknown benchmark always ends the run with a
    non-zero status and without any access to the file system; when the
    query number is an integer, the message that is printed names the
    benchmark as it was given, in lower case; when the query number is no
    integer, the run is turned down for that and the message names the
    query-number argument. *)
Theorem unknown_benchmark_rejected (env : Env) (prog a1 a2 : string) :
  existsb (String.eqb (PyStr.lower a1)) ["tpc-h"; "tpc-ds"] = false ->
  exit_status env [prog; a1; a2] = 1%Z
  /\ no_fs_access (run_trace env [prog; a1; a2]) = true
  /\ (forall n,
        PyStr.to_int (int_max_str_digits env) a2 = Some n ->
        run_trace env [prog; a1; a2]
        = [Print (unknown_benchmark_message (PyStr.lower a1))]
        /\ PyStr.contains (PyStr.lower a1)
             (stdout (run_trace env [prog; a1; a2])) = true)
  /\ (PyStr.to_int (int_max_str_digits env) a2 = None ->
      run_trace env [prog; a1; a2] = [Print (not_integer_message a2)]).
Proof.
  intros Hb. run_unfold.
  destruct (PyStr.to_int (int_max_str_digits env) a2) as [n|];
    script_step; [rewrite Hb; script_step|].
  - split; [reflexivity|]. split; [reflexivity|]. split; [|discriminate].
    intros _ _. split; [reflexivity|].
    cbn [stdout]. unfold unknown_benchmark_message.
    rewrite !append_assoc. apply contains_middle.
  - split; [reflexivity|]. split; [reflexivity|].
    split; [discriminate|]. intros _. reflexivity.
Qed.

(** ** A missing query file *)

(** C5: when the arguments are accepted and the query file is missing,
    the run ends with status 1 after printing a message that says that the
    file was not found and gives the path it looked for. *)
Theorem missing_query_file (env : Env) (argv : list string)
        (benchmark : string) (number : Z) (path : string) :
  accepted env argv benchmark number path ->
  path_exists env [reading path] path = false ->
  exit_status env argv = 1%Z
  /\ run_trace env argv
     = [reading path; PathExists path false; Print (not_found_message path)]
  /\ PyStr.contains "not found" (not_found_message path) = true
  /\ PyStr.contains path (not_found_message path) = true.
Proof.
  intros (prog & a1 & a2 & -> & -> & Hint & Hb & Hpath) Hmissing.
  unfold reading in *. run_unfold. rewrite Hint. script_step.
  rewrite Hb. script_step. rewrite Hpath. script_step.
  rewrite Hmissing. script_step.
  split; [reflexivity|]. split; [reflexivity|]. split; [reflexivity|].
  unfold not_found_message. rewrite <- (append_empty_r path) at 2.
  apply contains_middle.
Qed.

(** ** Traces *)

Lemma clean_app (a b : trace) : clean (a ++ b) = clean a && clean b.
Proof. apply forallb_app. Qed.

Lemma clean_ok_sql (stmts : list string) : clean (ok_sql stmts) = true.
Proof. induction stmts as [|stmt stmts IH]; [reflexivity | exact IH]. Qed.

Lemma stdout_app (a b : trace) : stdout (a ++ b) = (stdout a ++ stdout b)%string.
Proof.
  induction a as [|e a IH]; [reflexivity|].
  destruct e; cbn [app stdout]; rewrite IH; try reflexivity.
  now rewrite !append_assoc.
Qed.

Lemma stdout_ok_sql (stmts : list string) : stdout (ok_sql stmts) = "".
Proof. induction stmts as [|stmt stmts IH]; [reflexivity | exact IH]. Qed.

Lemma session_ok_sql (stmts : list string) (live : bool) :
  fold_left session_after (ok_sql stmts) live = live.
Proof. induction stmts as [|stmt stmts IH]; [reflexivity | exact IH]. Qed.

(** A session that is live stays live until it is stopped. *)
Lemma session_stopped (t : trace) :
  fold_left session_after t true = false -> In Stop t.
Proof.
  induction t as [|e t IH]; [discriminate|].
  destruct e as [| | | |[]| | | |]; cbn [fold_left session_after];
    intros H; try (right; apply IH; exact H).
  left. reflexivity.
Qed.

(** In a clean trace no call has failed. *)
Lemma clean_no_failure (t h rest : trace) (e : event) :
  clean t = true -> t = h ++ e :: rest -> failed e = false.
Proof.
  intros Hclean ->. rewrite clean_app in Hclean.
  apply andb_prop in Hclean as [_ Hclean]. cbn in Hclean.
  apply andb_prop in Hclean as [Hclean _].
  now apply negb_true_iff.
Qed.

(** A failure between two clean stretches is the only failure. *)
Lemma unique_failure (pre post h rest : trace) (e0 e : event) :
  clean pre = true -> clean post = true ->
  pre ++ e0 :: post = h ++ e :: rest -> failed e = true ->
  h = pre /\ e = e0 /\ rest = post.
Proof.
  revert h. induction pre as [|x pre IH]; intros h Hpre Hpost Heq Hfailed.
  - destruct h as [|y h]; cbn in Heq.
    + injection Heq as -> ->. auto.
    + injection Heq as _ Heq.
      rewrite (@clean_no_failure post h rest e Hpost Heq) in Hfailed.
      discriminate.
  - cbn in Hpre. apply andb_prop in Hpre as [Hx Hpre].
    destruct h as [|y h]; cbn in Heq; injection Heq as Hhead Heq.
    + subst x. rewrite Hfailed in Hx. discriminate.
    + destruct (IH h Hpre Hpost Heq Hfailed) as (-> & -> & ->). subst y. auto.
Qed.

(** ** The checks on the arguments *)

Lemma accepted_not_rejected env argv benchmark number path :
  accepted env argv benchmark number path -> rejected env argv = false.
Proof.
  intros (prog & a1 & a2 & -> & -> & Hint & Hb & _).
  unfold rejected. cbn [length Nat.eqb negb orb nth].
  rewrite Hint, Hb. reflexivity.
Qed.

Lemma usage_rejected env argv : length argv <> 3%nat -> rejected env argv = true.
Proof.
  intros Hlen. unfold rejected.
  destruct (Nat.eqb_spec (length argv) 3); [contradiction | reflexivity].
Qed.

Lemma not_int_rejected env prog a1 a2 :
  PyStr.to_int (int_max_str_digits env) a2 = None ->
  rejected env [prog; a1; a2] = true.
Proof.
  intros Hint. unfold rejected. cbn [length Nat.eqb negb orb nth].
  rewrite Hint. reflexivity.
Qed.

Lemma unknown_rejected env prog a1 a2 number :
  PyStr.to_int (int_max_str_digits env) a2 = Some number ->
  existsb (String.eqb (PyStr.lower a1)) ["tpc-h"; "tpc-ds"] = false ->
  rejected env [prog; a1; a2] = true.
Proof.
  intros Hint Hb. unfold rejected. cbn [length Nat.eqb negb orb nth].
  rewrite Hint, Hb. reflexivity.
Qed.

(** A run either is turned down by the checks and prints one message, or
    starts by naming the file it reads. *)
Lemma run_checked env argv status t :
  Run env argv status t ->
  (rejected env argv = true /\ status = 1%Z /\ exists text, t = [Print text])
  \/ (rejected env argv = false
      /\ exists benchmark number path rest,
           accepted env argv benchmark number path
           /\ t = reading path :: rest).
Proof.
  intros [ Hlen | ? ? ? -> Hnone | ? ? ? ? -> Hint Hunknown
         | b m p Hacc | b m p e Hacc | b m p e Hacc | b m p q e Hacc
         | b m p q parts st t' Hacc ].
  1-3: left; split; [|split; [reflexivity | eexists; reflexivity]].
  - now apply usage_rejected.
  - now apply not_int_rejected.
  - now apply unknown_rejected with number.
  - right. split; [eapply accepted_not_rejected; eauto|]. eauto 8.
  - right. split; [eapply accepted_not_rejected; eauto|]. eauto 8.
  - right. split; [eapply accepted_not_rejected; eauto|]. eauto 8.
  - right. split; [eapply accepted_not_rejected; eauto|].
    exists b, m, p. eexists. split; [exact Hacc|]. reflexivity.
  - right. split; [eapply accepted_not_rejected; eauto|].
    exists b, m, p. eexists. split; [exact Hacc|]. reflexivity.
Qed.

(** C10: a run that gets past the three checks of [main] calls
    [get_query_path] with a benchmark for which the function returns a
    path, and the run goes on with that path; the other runs stop at a
    check, before the call.  So the call never raises. *)
Theorem get_query_path_never_raises (env : Env) (argv : list string) :
  (rejected env argv = true
   /\ exit_status env argv = 1%Z
   /\ exists text, run_trace env argv = [Print text])
  \/ (rejected env argv = false
      /\ exists benchmark number path rest,
           In benchmark ["tpc-h"; "tpc-ds"]
           /\ (forall s, get_query_path env benchmark number s = (Ret path, s))
           /\ accepted env argv benchmark number path
           /\ run_trace env argv = reading path :: rest).
Proof.
  destruct (@run_checked env argv _ _ (run_sound env argv))
    as [H | (Hrej & b & n & p & rest & Hacc & Ht)]; [left; exact H|].
  right. split; [exact Hrej|]. exists b, n, p, rest.
  repeat split; try assumption.
  - destruct Hacc as (_ & _ & _ & _ & _ & _ & Hb & _).
    cbn [existsb] in Hb. cbn [In].
    destruct (String.eqb_spec b "tpc-h"); [auto|].
    destruct (String.eqb_spec b "tpc-ds"); [auto|discriminate].
  - destruct Hacc as (_ & _ & _ & _ & _ & _ & _ & Hp). apply Hp.
Qed.

(** ** The shape of a run *)

Lemma clean_cons (e : event) (t : trace) :
  clean (e :: t) = negb (failed e) && clean t.
Proof. reflexivity. Qed.

Ltac trace_unfold :=
  unfold completed, translated, loaded, title, reading, plan_error.

Ltac trace_eq :=
  trace_unfold; cbn [app]; rewrite <- ?app_assoc; cbn [app]; reflexivity.

Ltac trace_clean :=
  trace_unfold; cbn [app];
  repeat (rewrite clean_cons || rewrite clean_app || rewrite clean_ok_sql);
  reflexivity.

Lemma run_shape env argv status t :
  Run env argv status t ->
  (status = 1%Z /\ rejected env argv = true /\ exists text, t = [Print text])
  \/ (status = 1%Z /\ rejected env argv = false /\ aborted t)
  \/ (status = 0%Z /\ rejected env argv = false
      /\ exists benchmark number path query parts plan,
           accepted env argv benchmark number path
           /\ t = completed benchmark path query parts plan).
Proof.
  intros Hrun.
  destruct (run_checked Hrun)
    as [(Hrej & -> & Htext) | (Hrej & _)]; [left; auto|].
  right.
  destruct Hrun as
    [ Hlen | ? ? ? -> Hnone | ? ? ? ? -> Hint Hunknown
    | b m p Hacc | b m p e Hacc | b m p e Hacc | b m p q e Hacc
    | b m p q parts st t' Hacc _ _ _ Hplan ].
  - rewrite usage_rejected in Hrej; [discriminate | assumption].
  - rewrite not_int_rejected in Hrej; [discriminate | assumption].
  - rewrite (@unknown_rejected env _ _ _ _ Hint Hunknown) in Hrej. discriminate.
  - left. repeat split; [assumption|].
    exists [reading p], (PathExists p false),
      (Print ("Error: Query file not found: " ++ p)%string), [].
    repeat split; auto.
  - left. repeat split; [assumption|].
    exists [reading p; PathExists p true], (OpenRead p (inl e)),
      (Print ("Error: " ++ msg e)%string), [].
    repeat split; auto.
  - left. repeat split; [assumption|].
    exists [reading p; PathExists p true], (OpenRead p (inl e)),
      (Traceback e), [].
    repeat split; auto.
  - left. repeat split; [assumption|].
    exists (loaded p q), (Transpile q "duckdb" "spark" (inl e)),
      (Print ("Error: Failed to translate query: " ++ msg e)%string), [].
    repeat split; auto.
  - destruct Hplan as
      [ e _ | done stmt rest e _ _ _ | e _ _ | e _ _ _ | plan _ _ _ ].
    + left. repeat split; [assumption|].
      exists (translated p q parts), (GetOrCreate (Some e)),
        (plan_error (msg e)), [].
      repeat split; auto.
    + left. repeat split; [assumption|].
      exists (translated p q parts ++ GetOrCreate None :: ok_sql done),
        (Sql stmt (Some e)), (plan_error (msg e)), [Stop].
      repeat split; auto; solve [trace_eq | trace_clean].
    + left. repeat split; [assumption|].
      exists (translated p q parts ++ GetOrCreate None :: ok_sql (tables b)),
        (Sql (String.concat PyStr.nl parts) (Some e)),
        (plan_error ("Failed to get physical plan: " ++ msg e)%string),
        [Stop].
      repeat split; auto; solve [trace_eq | trace_clean].
    + left. repeat split; [assumption|].
      exists (translated p q parts ++ GetOrCreate None :: ok_sql (tables b)
                ++ [Sql (String.concat PyStr.nl parts) None]),
        (ExplainString (String.concat PyStr.nl parts) (inl e)),
        (plan_error ("Failed to get physical plan: " ++ msg e)%string),
        [Stop].
      repeat split; auto; solve [trace_eq | trace_clean].
    + right. repeat split; [assumption|].
      exists b, m, p, q, parts, plan. split; [assumption | reflexivity].
Qed.

(** ** Failures *)

(** The trace [t] is [pre ++ e0 :: post], with its only failed call at
    [e0]. *)
Ltac only_failure Hsplit Hfailed pre e0 post :=
  match type of Hsplit with
  | ?t = ?h ++ ?e :: ?rest =>
      let Heq := fresh in
      assert (Heq : pre ++ e0 :: post = t) by (symmetry; trace_eq);
      let Hpre := fresh in
      let Hpost := fresh in
      assert (Hpre : clean pre = true) by trace_clean;
      assert (Hpost : clean post = true) by trace_clean;
      destruct (@unique_failure pre post h rest e0 e Hpre Hpost
                  (eq_trans Heq Hsplit) Hfailed) as (-> & -> & ->);
      clear Hpre Hpost Heq
  end.

(** The trace [t] has no failed call, so it cannot be split at one. *)
Ltac no_failure Hsplit Hfailed :=
  exfalso;
  match type of Hsplit with
  | ?t = ?h ++ ?e :: ?rest =>
      let Hclean := fresh in
      assert (Hclean : clean t = true) by trace_clean;
      rewrite (@clean_no_failure t h rest e Hclean Hsplit) in Hfailed;
      discriminate Hfailed
  end.

Ltac printed_error :=
  eexists _, _; split; [reflexivity|];
  unfold reported, plan_error; eexists; split; reflexivity.

(** What follows a failed call starts with the answer of [main] to it. *)
Lemma failed_call_reported env argv status t h e rest :
  Run env argv status t ->
  t = h ++ e :: rest ->
  failed e = true ->
  exists m after, rest = m :: after /\ reported e m.
Proof.
  intros Hrun Hsplit Hfailed.
  destruct Hrun as
    [ Hlen | ? ? ? -> Hnone | ? ? ? ? -> Hint Hunknown
    | b m p Hacc | b m p err Hacc _ _ Hcls | b m p err Hacc _ _ Hcls
    | b m p q err Hacc
    | b m p q parts st t' Hacc _ _ _ Hplan ].
  - no_failure Hsplit Hfailed.
  - no_failure Hsplit Hfailed.
  - no_failure Hsplit Hfailed.
  - only_failure Hsplit Hfailed [reading p] (PathExists p false)
      [Print ("Error: Query file not found: " ++ p)%string].
    printed_error.
  - only_failure Hsplit Hfailed [reading p; PathExists p true]
      (OpenRead p (inl err)) [Print ("Error: " ++ msg err)%string].
    eexists _, _. split; [reflexivity|].
    unfold reported, read_failure_report. rewrite Hcls. reflexivity.
  - only_failure Hsplit Hfailed [reading p; PathExists p true]
      (OpenRead p (inl err)) [Traceback err].
    eexists _, _. split; [reflexivity|].
    unfold reported, read_failure_report.
    destruct (cls err); try reflexivity. contradiction.
  - only_failure Hsplit Hfailed (loaded p q)
      (Transpile q "duckdb" "spark" (inl err))
      [Print ("Error: Failed to translate query: " ++ msg err)%string].
    printed_error.
  - destruct Hplan as
      [ err _ | done stmt rest' err _ _ _ | err _ _ | err _ _ _
      | plan _ _ _ ].
    + only_failure Hsplit Hfailed (translated p q parts)
        (GetOrCreate (Some err)) [plan_error (msg err)].
      printed_error.
    + only_failure Hsplit Hfailed
        (translated p q parts ++ GetOrCreate None :: ok_sql done)
        (Sql stmt (Some err)) [plan_error (msg err); Stop].
      printed_error.
    + only_failure Hsplit Hfailed
        (translated p q parts ++ GetOrCreate None :: ok_sql (tables b))
        (Sql (String.concat PyStr.nl parts) (Some err))
        [plan_error ("Failed to get physical plan: " ++ msg err)%string;
         Stop].
      printed_error.
    + only_failure Hsplit Hfailed
        (translated p q parts ++ GetOrCreate None :: ok_sql (tables b)
           ++ [Sql (String.concat PyStr.nl parts) None])
        (ExplainString (String.concat PyStr.nl parts) (inl err))
        [plan_error ("Failed to get physical plan: " ++ msg err)%string;
         Stop].
      printed_error.
    + no_failure Hsplit Hfailed.
Qed.

(** C8: a run whose arguments are turned down (wrong number of arguments,
    query number that is no integer, unknown benchmark) prints one message and
    ends with status 1 without calling anything; and in every run, a call
    that fails (the file is missing, the translation or a step of the
    planning raises) comes after calls that all succeeded and is followed
    by one line on standard output that starts with the word Error, by the
    release of the session when one was opened, and by nothing else, and
    the run ends with status 1.  The one failure that [main] does not print
    itself is an error of [open] or [read] other than [FileNotFoundError],
    which escapes; a [FileNotFoundError] of [open] is printed. *)
Theorem failures_abort (env : Env) (argv : list string) :
  (rejected env argv = true ->
   exit_status env argv = 1%Z
   /\ exists text, run_trace env argv = [Print text])
  /\ (forall h e rest,
        run_trace env argv = h ++ e :: rest ->
        failed e = true ->
        exit_status env argv = 1%Z
        /\ clean h = true
        /\ exists m after,
             rest = m :: after
             /\ reported e m
             /\ is_message m = true
             /\ (after = [] \/ after = [Stop])).
Proof.
  assert (Hreported : forall h e rest,
             run_trace env argv = h ++ e :: rest -> failed e = true ->
             exists m after, rest = m :: after /\ reported e m).
  { intros h e rest. eapply failed_call_reported. apply run_sound. }
  destruct (run_shape (run_sound env argv))
    as [ (Hst & Hrej & text & Ht)
       | [ (Hst & Hrej & pre & e0 & m & after & Ht & Hpre & He0 & Hm & Hafter)
         | (Hst & Hrej & b & n & p & q & parts & plan & _ & Ht) ] ];
    (split; [intros Hrej'; try congruence; eauto|]);
    intros h e rest Hsplit Hfailed;
    destruct (Hreported h e rest Hsplit Hfailed)
      as (m' & after' & Hrest & Hanswer);
    rewrite Ht in Hsplit.
  - assert (Hclean : clean [Print text] = true) by reflexivity.
    rewrite (@clean_no_failure _ h rest e Hclean Hsplit) in Hfailed.
    discriminate.
  - assert (Hpost : clean (m :: after) = true).
    { destruct Hafter as [-> | ->]; destruct m; try discriminate; reflexivity. }
    destruct (@unique_failure pre (m :: after) h rest e0 e Hpre Hpost Hsplit
                Hfailed) as (-> & -> & ->).
    injection Hrest as <- <-.
    eauto 10.
  - assert (Hclean : clean (completed b p q parts plan) = true)
      by trace_clean.
    rewrite (@clean_no_failure _ h rest e Hclean Hsplit) in Hfailed.
    discriminate.
Qed.

(** ** The run that goes through *)

(** C6: when the arguments pass the checks and no call fails, standard
    output is the line that names the query file, then the query under the
    title ORIGINAL QUERY, then the translation under the title TRANSLATED
    TO SPARK SQL, then the plan under the title SPARK PHYSICAL PLAN, and the
    status is 0. *)
Theorem successful_run (env : Env) (argv : list string) :
  rejected env argv = false ->
  clean (run_trace env argv) = true ->
  exists benchmark number path query parts plan,
    accepted env argv benchmark number path
    /\ run_trace env argv = completed benchmark path query parts plan
    /\ stdout (run_trace env argv)
       = ("Reading query from: " ++ path ++ PyStr.nl
            ++ section_header "ORIGINAL QUERY:"
            ++ query ++ PyStr.nl
            ++ section_header "TRANSLATED TO SPARK SQL:"
            ++ String.concat PyStr.nl parts ++ PyStr.nl
            ++ section_header "SPARK PHYSICAL PLAN:"
            ++ plan ++ PyStr.nl)%string
    /\ exit_status env argv = 0%Z.
Proof.
  intros Hrej Hclean.
  destruct (run_shape (run_sound env argv))
    as [ (Hst & Hrej' & _)
       | [ (Hst & _ & pre & e0 & m & after & Ht & Hpre & He0 & _)
         | (Hst & _ & b & n & p & q & parts & plan & Hacc & Ht) ] ].
  - congruence.
  - rewrite Ht, clean_app, clean_cons, He0 in Hclean.
    rewrite andb_false_r in Hclean. discriminate.
  - exists b, n, p, q, parts, plan.
    split; [exact Hacc|]. split; [exact Ht|]. split; [|exact Hst].
    rewrite Ht. trace_unfold. unfold section_header.
    repeat (rewrite stdout_app || rewrite stdout_ok_sql
            || cbn [app stdout]).
    rewrite ?append_assoc, ?append_empty_r. cbn [append]. reflexivity.
Qed.

(** The runs that end with status 0 are the runs in which the arguments
    pass the checks and no call fails. *)
Lemma status_zero_clean (env : Env) (argv : list string) :
  exit_status env argv = 0%Z ->
  rejected env argv = false /\ clean (run_trace env argv) = true.
Proof.
  intros Hzero.
  destruct (run_shape (run_sound env argv))
    as [ (Hst & _) | [ (Hst & _) | (_ & Hrej & b & n & p & q & parts & plan
                                    & _ & Ht) ] ];
    try congruence.
  split; [exact Hrej|]. rewrite Ht. trace_clean.
Qed.

(** ** The session *)

Lemma session_live_run env argv status t :
  Run env argv status t -> session_live t = false.
Proof.
  intros [ Hlen | ? ? ? -> Hnone | ? ? ? ? -> Hint Hunknown
         | b m p Hacc | b m p e Hacc | b m p e Hacc | b m p q e Hacc
         | b m p q parts st t' Hacc _ _ _ Hplan ]; try reflexivity.
  destruct Hplan as
    [ e _ | done stmt rest e _ _ _ | e _ _ | e _ _ _ | plan _ _ _ ];
    unfold session_live; trace_unfold;
    cbn [app fold_left session_after];
    repeat (rewrite fold_left_app; cbn [fold_left session_after]);
    rewrite ?session_ok_sql; reflexivity.
Qed.

(** C1: no run ends with a live session, and whenever a session was
    created, on the path where the plan is printed as on the paths where
    table creation or planning raises, the session is stopped later in
    the run. *)
Theorem session_released (env : Env) (argv : list string) :
  session_live (run_trace env argv) = false
  /\ forall h rest,
       run_trace env argv = h ++ GetOrCreate None :: rest -> In Stop rest.
Proof.
  pose proof (session_live_run (run_sound env argv)) as Hlive.
  split; [exact Hlive|].
  intros h rest Ht. rewrite Ht in Hlive. unfold session_live in Hlive.
  rewrite fold_left_app in Hlive. cbn [fold_left session_after] in Hlive.
  now apply session_stopped.
Qed.

(** ** Two runs on the same inputs *)

(** The cases of the last block of [main] in the world [env]. *)
Ltac plan_cases env :=
  destruct (get_or_create env _) as [?e|]; script_step;
  [ | match goal with
      | |- context [(if (?b =? _)%string
                         then create_tpc_h_tables env _ else _) ?s] =>
          destruct (create_tables_run env SparkSession b s)
            as (?r & ?t & -> & [|? ? ? ? _ _])
      end; script_step; rewrite <- ?app_assoc; cbn [app];
      [ destruct (sql env _ (String.concat PyStr.nl _)) as [?e|];
        script_step; rewrite <- ?app_assoc; cbn [app];
        [ | destruct (explain_string env _ (String.concat PyStr.nl _))
              as [?e|?plan];
            script_step; rewrite <- ?app_assoc; cbn [app] ]
      | ] ].

Lemma before_session_prefix (t : trace) :
  exists after, t = before_session t ++ after.
Proof.
  induction t as [|e t [after IH]]; [exists []; reflexivity|].
  destruct e; cbn [before_session app];
    try (exists after; rewrite <- IH; reflexivity).
  eexists. reflexivity.
Qed.

Lemma before_session_translated path query parts rest :
  before_session (translated path query parts ++ rest)
  = translated path query parts ++ before_session rest.
Proof. reflexivity. Qed.

Lemma front_agrees (e1 e2 : Env) (argv : list string) :
  same_inputs e1 e2 ->
  before_session (run_trace e1 argv) = before_session (run_trace e2 argv).
Proof.
  intros (Hsd & Hlim & Hpe & Hor & Htr).
  destruct argv as [|prog [|a1 [|a2 [|a3 argv]]]]; try reflexivity.
  run_unfold. rewrite <- Hlim.
  destruct (PyStr.to_int (int_max_str_digits e1) a2) as [n|];
    script_step; [|reflexivity].
  destruct (existsb (String.eqb (PyStr.lower a1)) ["tpc-h"; "tpc-ds"]) eqn:Hb;
    script_step; [|reflexivity].
  destruct (get_query_path_accepted e1 (PyStr.lower a1) n Hb) as [path Hpath].
  assert (Hpath2 : forall s,
             get_query_path e2 (PyStr.lower a1) n s = (Ret path, s)).
  { intros s. rewrite <- (Hpath s). unfold get_query_path.
    rewrite Hsd. reflexivity. }
  rewrite Hpath, Hpath2. script_step.
  rewrite <- !Hpe.
  destruct (path_exists e1 _ path); script_step; [|reflexivity].
  rewrite <- !Hor.
  destruct (open_read e1 _ path) as [e|query]; script_step.
  { destruct e as [[] m]; reflexivity. }
  rewrite <- !Htr.
  destruct (transpile e1 _ query "duckdb" "spark") as [e|parts]; script_step;
    [reflexivity|].
  plan_cases e1; plan_cases e2; reflexivity.
Qed.

(** C7: two runs with the same arguments, in worlds where the query file
    and the translator are the same, do exactly the same up to the point
    where the script turns to Spark; in particular, when one run prints a
    query and its translation, the other run prints the same query and the
    same translation. *)
Theorem original_and_translated_deterministic
        (e1 e2 : Env) (argv : list string) :
  same_inputs e1 e2 ->
  before_session (run_trace e1 argv) = before_session (run_trace e2 argv)
  /\ stdout (before_session (run_trace e1 argv))
     = stdout (before_session (run_trace e2 argv))
  /\ forall path query parts rest,
       run_trace e1 argv = translated path query parts ++ rest ->
       exists rest',
         run_trace e2 argv = translated path query parts ++ rest'.
Proof.
  intros Hsame. pose proof (front_agrees argv Hsame) as Hfront.
  split; [exact Hfront|]. split; [now rewrite Hfront|].
  intros path query parts rest Ht.
  rewrite Ht, before_session_translated in Hfront.
  destruct (before_session_prefix (run_trace e2 argv)) as [after Hafter].
  rewrite <- Hfront, <- app_assoc in Hafter. eauto.
Qed.

(** ** The theorems at work *)

(** In the sample world the session opened for the first query of TPC-H is
    stopped: the trace has sixteen events up to the creation of the session,
    and [Stop] is among the events that follow. *)
Lemma session_released_witness :
  In Stop (skipn 16 (run_trace (sample_world tpc_h_1_file) tpc_h_1)).
Proof.
  apply (proj2 (session_released (sample_world tpc_h_1_file) tpc_h_1)
           (firstn 15 (run_trace (sample_world tpc_h_1_file) tpc_h_1))).
  vm_compute. reflexivity.
Defined.

(** The unknown benchmark tpc-x, with the query number 1. *)
Lemma unknown_benchmark_rejected_witness :
  exit_status (sample_world "") tpc_x_1 = 1%Z
  /\ no_fs_access (run_trace (sample_world "") tpc_x_1) = true
  /\ PyStr.contains "tpc-x" (stdout (run_trace (sample_world "") tpc_x_1))
     = true.
Proof.
  destruct (@unknown_benchmark_rejected (sample_world "") script_name
              "tpc-x" "1" eq_refl) as (Hstatus & Hfs & Hnamed & _).
  split; [exact Hstatus|]. split; [exact Hfs|].
  exact (proj2 (Hnamed 1%Z eq_refl)).
Defined.

(** C2, as it is stated, fails when the query number is no integer either:
    the only message names the query number, not the benchmark. *)
Lemma unknown_benchmark_not_named :
  existsb (String.eqb (PyStr.lower "tpc-x")) ["tpc-h"; "tpc-ds"] = false
  /\ run (sample_world "") tpc_x_abc
     = (1%Z, [Print "Error: Query number must be an integer, got 'abc'"])
  /\ PyStr.contains (PyStr.lower "tpc-x")
       (stdout (run_trace (sample_world "") tpc_x_abc)) = false.
Proof. vm_compute. repeat split; reflexivity. Qed.

(** The query numbers abc and -5. *)
Lemma query_number_validation_witness :
  run_trace (sample_world "") [script_name; "tpc-h"; "abc"]
  = [Print (not_integer_message "abc")]
  /\ exists path found rest,
       run_trace (sample_world tpc_h_minus_5_file) tpc_h_minus_5
       = reading path :: PathExists path found :: rest.
Proof.
  split.
  - apply (proj1 (query_number_validation (sample_world "") script_name
                    "tpc-h" "abc") eq_refl).
  - destruct (proj2 (query_number_validation
                       (sample_world tpc_h_minus_5_file) script_name
                       "tpc-h" "-5") (-5)%Z eq_refl eq_refl)
      as (path & found & rest & _ & Ht).
    exists path, found, rest. exact Ht.
Defined.

(** C3, as it is stated, fails for the query number -5: [int] reads it,
    the script looks for the file [-5.sql] and, when the file is there,
    goes through with status 0. *)
Lemma negative_query_number_accepted :
  PyStr.to_int 4300 "-5" = Some (-5)%Z
  /\ exit_status (sample_world tpc_h_minus_5_file) tpc_h_minus_5 = 0%Z
  /\ no_fs_access (run_trace (sample_world tpc_h_minus_5_file) tpc_h_minus_5)
     = false
  /\ In (PathExists tpc_h_minus_5_file true)
        (run_trace (sample_world tpc_h_minus_5_file) tpc_h_minus_5).
Proof.
  split; [reflexivity|]. split; [vm_compute; reflexivity|].
  split; [vm_compute; reflexivity|].
  vm_compute. right. left. reflexivity.
Qed.

(** The query 999 of TPC-DS, in a world without its file. *)
Lemma missing_query_file_witness :
  exit_status (sample_world "") tpc_ds_999 = 1%Z
  /\ run_trace (sample_world "") tpc_ds_999
     = [reading tpc_ds_999_file; PathExists tpc_ds_999_file false;
        Print (not_found_message tpc_ds_999_file)].
Proof.
  assert (Hacc : accepted (sample_world "") tpc_ds_999 "tpc-ds" 999
                   tpc_ds_999_file).
  { exists script_name, "TPC-DS", "999".
    repeat split; intros; reflexivity. }
  destruct (@missing_query_file (sample_world "") tpc_ds_999 "tpc-ds" 999
              tpc_ds_999_file Hacc eq_refl) as (Hstatus & Ht & _).
  split; [exact Hstatus | exact Ht].
Defined.

(** The first query of TPC-H in the sample world. *)
Lemma successful_run_witness :
  exit_status (sample_world tpc_h_1_file) tpc_h_1 = 0%Z.
Proof.
  destruct (@successful_run (sample_world tpc_h_1_file) tpc_h_1
              eq_refl eq_refl)
    as (b & n & p & q & parts & plan & _ & _ & _ & Hstatus).
  exact Hstatus.
Defined.

(** A world where Spark plans the query and a world where it does not. *)
Lemma original_and_translated_deterministic_witness :
  before_session (run_trace (sample_world tpc_h_1_file) tpc_h_1)
  = before_session (run_trace (no_plan_world tpc_h_1_file) tpc_h_1).
Proof.
  apply (@original_and_translated_deterministic
           (sample_world tpc_h_1_file) (no_plan_world tpc_h_1_file) tpc_h_1).
  repeat split; intros; reflexivity.
Defined.

(** An unknown benchmark, a missing file, and a query the translator
    refuses: after the failed call the run prints its error line. *)
Lemma failures_abort_witness :
  exit_status (sample_world "") tpc_x_1 = 1%Z
  /\ exit_status (sample_world "") tpc_ds_999 = 1%Z
  /\ exists m after,
       skipn 11 (run_trace (no_translation_world tpc_h_1_file) tpc_h_1)
       = m :: after
       /\ reported
            (Transpile "SELEC 1" "duckdb" "spark"
               (inl (Error ValueError
                       "Invalid expression / Unexpected token")))
            m.
Proof.
  split; [|split].
  - exact (proj1 (proj1 (failures_abort (sample_world "") tpc_x_1) eq_refl)).
  - exact (proj1 (proj2 (failures_abort (sample_world "") tpc_ds_999)
                    [reading tpc_ds_999_file]
                    (PathExists tpc_ds_999_file false)
                    [Print (not_found_message tpc_ds_999_file)]
                    eq_refl eq_refl)).
  - destruct (proj2 (failures_abort (no_translation_world tpc_h_1_file)
                       tpc_h_1)
                (firstn 10
                   (run_trace (no_translation_world tpc_h_1_file) tpc_h_1))
                (Transpile "SELEC 1" "duckdb" "spark"
                   (inl (Error ValueError
                           "Invalid expression / Unexpected token")))
                (skipn 11
                   (run_trace (no_translation_world tpc_h_1_file) tpc_h_1))
                eq_refl eq_refl)
      as (_ & _ & m & after & Hrest & Hreported & _).
    exists m, after. split; [exact Hrest | exact Hreported].
Defined.

(** * Further properties of the script *)

(** ** The arguments *)

(** X1: [main] never looks at the name of the program, uses the benchmark
    only in lower case and, once [int] has read the query number, uses the
    number only: two command lines with the same benchmark up to case and
    query numbers that [int] reads as the same integer give the same run. *)
Theorem run_by_value (env : Env) (prog prog' a1 a1' a2 a2' : string) (n : Z) :
  PyStr.lower a1 = PyStr.lower a1' ->
  PyStr.to_int (int_max_str_digits env) a2 = Some n ->
  PyStr.to_int (int_max_str_digits env) a2' = Some n ->
  run env [prog; a1; a2] = run env [prog'; a1'; a2'].
Proof.
  intros Hlower Hint Hint'. unfold run. script_unfold.
  rewrite Hint, Hint', Hlower. reflexivity.
Qed.

(** ** The path of the query file, continued *)

Lemma contains_sep_cons (c : ascii) (s : string) :
  PyStr.contains OsPath.sep (String c s)
  = Ascii.eqb c "/" || PyStr.contains OsPath.sep s.
Proof.
  unfold OsPath.sep. cbn [PyStr.contains prefix].
  destruct (ascii_dec "/" c) as [<-|Hc].
  - rewrite prefix_nil. reflexivity.
  - destruct (Ascii.eqb_spec c "/"); [congruence|reflexivity].
Qed.

Lemma contains_sep_append (a b : string) :
  PyStr.contains OsPath.sep (a ++ b)%string
  = PyStr.contains OsPath.sep a || PyStr.contains OsPath.sep b.
Proof.
  induction a as [|c a IH].
  - reflexivity.
  - cbn [append]. rewrite !contains_sep_cons, IH. apply orb_assoc.
Qed.

Lemma uint_no_sep (d : Decimal.uint) :
  PyStr.contains OsPath.sep (NilEmpty.string_of_uint d) = false.
Proof.
  induction d; cbn [NilEmpty.string_of_uint];
    rewrite ?contains_sep_cons, ?IHd; reflexivity.
Qed.

(** The numeral of an integer has no separator in it. *)
Lemma of_int_no_sep_inside (n : Z) :
  PyStr.contains OsPath.sep (PyStr.of_int n) = false.
Proof.
  unfold PyStr.of_int.
  destruct n as [|p|p]; cbn [Z.to_int NilZero.string_of_int].
  - reflexivity.
  - unfold NilZero.string_of_uint.
    destruct (Pos.to_uint p) eqn:E; rewrite <- ?E; try apply uint_no_sep.
    reflexivity.
  - rewrite contains_sep_cons. cbn [Ascii.eqb Bool.eqb orb].
    unfold NilZero.string_of_uint.
    destruct (Pos.to_uint p) eqn:E; rewrite <- ?E; try apply uint_no_sep.
    reflexivity.
Qed.

Lemma of_int_injective (n m : Z) : PyStr.of_int n = PyStr.of_int m -> n = m.
Proof.
  unfold PyStr.of_int. intros H.
  apply (f_equal NilZero.int_of_string) in H.
  assert (Hnonnil : forall z, Z.to_int z <> Decimal.Pos Decimal.Nil
                              /\ Z.to_int z <> Decimal.Neg Decimal.Nil).
  { intros [|p|p]; cbn; split; try discriminate;
      intros [= E]; now apply (DecimalPos.Unsigned.to_uint_nonnil p). }
  rewrite !NilZero.isi in H by apply Hnonnil.
  injection H as H. now apply DecimalZ.to_int_inj.
Qed.

Lemma append_cancel_l (a b c : string) : (a ++ b = a ++ c)%string -> b = c.
Proof. induction a as [|x a IH]; cbn; [auto | intros [= H]; auto]. Qed.

Lemma length_append (a b : string) :
  String.length (a ++ b) = (String.length a + String.length b)%nat.
Proof. induction a as [|x a IH]; cbn; [reflexivity | now rewrite IH]. Qed.

Lemma append_cancel_r (a b c : string) : (a ++ c = b ++ c)%string -> a = b.
Proof.
  revert b. induction a as [|x a IH]; intros [|y b] H; cbn in H.
  - reflexivity.
  - apply (f_equal String.length) in H. cbn in H.
    rewrite length_append in H. lia.
  - apply (f_equal String.length) in H. cbn in H.
    rewrite length_append in H. lia.
  - injection H as -> H. f_equal. now apply IH.
Qed.

(** What [get_query_path] returns, as one step of [join]. *)
Lemma accepted_path env argv benchmark number path :
  accepted env argv benchmark number path ->
  (benchmark = "tpc-h"
   /\ path = OsPath.join_step (script_dir env)
               ("queries-tpc-h/" ++ PyStr.of_int number ++ ".sql"))
  \/ (benchmark = "tpc-ds"
      /\ path = OsPath.join_step (script_dir env)
                  ("queries-tpc-ds/query" ++ PyStr.of_int number ++ ".sql")).
Proof.
  intros (prog & a1 & a2 & _ & _ & _ & Hb & Hpath).
  specialize (Hpath initial). cbn [existsb] in Hb.
  unfold get_query_path in Hpath.
  destruct (String.eqb_spec benchmark "tpc-h") as [->|_].
  - left. split; [reflexivity|]. injection Hpath as <-.
    apply (join_relative (script_dir env) "queries-tpc-" _ "h");
      [reflexivity | apply of_int_no_sep | reflexivity].
  - destruct (String.eqb_spec benchmark "tpc-ds") as [->|_]; [|discriminate].
    right. split; [reflexivity|]. injection Hpath as <-.
    apply (join_relative (script_dir env) "queries-tpc-d"
             ("query" ++ PyStr.of_int number ++ ".sql")%string "s");
      reflexivity.
Qed.

Lemma join_step_relative (dir b : string) :
  prefix OsPath.sep b = false ->
  exists glue,
    (glue = "" \/ glue = OsPath.sep)
    /\ OsPath.join_step dir b = (dir ++ glue ++ b)%string.
Proof.
  intros Hb. unfold OsPath.join_step. rewrite Hb.
  destruct ((dir =? "")%string || OsPath.endswith_sep dir).
  - exists "". auto.
  - exists OsPath.sep. auto.
Qed.

Lemma sql_name_not_dots (stem : string) :
  (stem ++ ".sql")%string <> ".." /\ (stem ++ ".sql")%string <> ".".
Proof.
  split; intros H; apply (f_equal String.length) in H;
    rewrite length_append in H; cbn in H; lia.
Qed.

(** X3: the file a run reads lies in the directory of the script, in the
    directory of the benchmark, and its name is the numeral of the query
    number followed by [.sql], after the word query for TPC-DS: the name
    has no separator in it and is neither [.] nor [..], so whatever the
    query number, the path does not lead anywhere else. *)
Theorem query_file_inside_script_dir
        (env : Env) (argv : list string) (benchmark : string) (number : Z)
        (path : string) :
  accepted env argv benchmark number path ->
  exists glue name,
    (glue = "" \/ glue = "/")
    /\ ((benchmark = "tpc-h"
         /\ name = (PyStr.of_int number ++ ".sql")%string)
        \/ (benchmark = "tpc-ds"
            /\ name = ("query" ++ PyStr.of_int number ++ ".sql")%string))
    /\ PyStr.contains "/" name = false
    /\ name <> ".." /\ name <> "."
    /\ path = (script_dir env ++ glue ++ query_dir benchmark ++ "/" ++ name)
              %string.
Proof.
  intros Hacc.
  destruct (accepted_path Hacc) as [[-> ->] | [-> ->]].
  - destruct (join_step_relative (script_dir env)
                ("queries-tpc-h/" ++ PyStr.of_int number ++ ".sql")
                eq_refl) as (glue & Hglue & ->).
    exists glue, (PyStr.of_int number ++ ".sql")%string.
    split; [exact Hglue|]. split; [left; auto|].
    split; [|split; [apply sql_name_not_dots|
                     split; [apply sql_name_not_dots|reflexivity]]].
    change "/" with OsPath.sep.
    rewrite contains_sep_append, of_int_no_sep_inside. reflexivity.
  - destruct (join_step_relative (script_dir env)
                ("queries-tpc-ds/query" ++ PyStr.of_int number ++ ".sql")
                eq_refl) as (glue & Hglue & ->).
    exists glue, ("query" ++ PyStr.of_int number ++ ".sql")%string.
    split; [exact Hglue|]. split; [right; auto|].
    split; [|split; [|split; [|reflexivity]]].
    + change "/" with OsPath.sep.
      rewrite !contains_sep_append, of_int_no_sep_inside. reflexivity.
    + rewrite <- append_assoc. apply sql_name_not_dots.
    + rewrite <- append_assoc. apply sql_name_not_dots.
Qed.

(** X2: two command lines that are accepted and resolve to the same file
    name the same benchmark and the same query number. *)
Theorem query_path_injective
        (env : Env) (argv argv' : list string) (benchmark benchmark' : string)
        (number number' : Z) (path : string) :
  accepted env argv benchmark number path ->
  accepted env argv' benchmark' number' path ->
  benchmark = benchmark' /\ number = number'.
Proof.
  intros Hacc Hacc'.
  assert (Hstep : forall b b',
             prefix OsPath.sep b = false -> prefix OsPath.sep b' = false ->
             OsPath.join_step (script_dir env) b
             = OsPath.join_step (script_dir env) b' -> b = b').
  { intros b b' Hb Hb'. unfold OsPath.join_step. rewrite Hb, Hb'.
    destruct ((script_dir env =? "")%string
              || OsPath.endswith_sep (script_dir env));
      intros H; apply append_cancel_l in H; [exact H|].
    now apply append_cancel_l in H. }
  destruct (accepted_path Hacc) as [[-> ->] | [-> ->]];
    destruct (accepted_path Hacc') as [[-> H] | [-> H]];
    apply Hstep in H; try reflexivity; try discriminate H.
  - split; [reflexivity|].
    apply (append_cancel_l "queries-tpc-h/") in H.
    apply append_cancel_r in H. now apply of_int_injective.
  - split; [reflexivity|].
    apply (append_cancel_l "queries-tpc-ds/query") in H.
    apply append_cancel_r in H. now apply of_int_injective.
Qed.

(** ** Events of a kind *)

Lemma none_of_cons (kind : event -> bool) (e : event) (t : trace) :
  none_of kind (e :: t) = negb (kind e) && none_of kind t.
Proof. reflexivity. Qed.

Lemma none_of_app (kind : event -> bool) (a b : trace) :
  none_of kind (a ++ b) = none_of kind a && none_of kind b.
Proof. apply forallb_app. Qed.

Lemma none_of_ok_sql (kind : event -> bool) (stmts : list string) :
  (forall stmt, kind (Sql stmt None) = false) ->
  none_of kind (ok_sql stmts) = true.
Proof.
  intros Hkind. induction stmts as [|stmt stmts IH]; [reflexivity|].
  cbn [ok_sql map]. rewrite none_of_cons, Hkind. exact IH.
Qed.

Lemma none_of_no_event (kind : event -> bool) (t h rest : trace) (e : event) :
  none_of kind t = true -> t = h ++ e :: rest -> kind e = false.
Proof.
  intros Hnone ->. rewrite none_of_app, none_of_cons in Hnone.
  apply andb_prop in Hnone as [_ Hnone].
  apply andb_prop in Hnone as [Hnone _].
  now apply negb_true_iff.
Qed.

(** An event of a kind between two stretches without that kind is the
    only one of its kind. *)
Lemma unique_event (kind : event -> bool) (pre post h rest : trace)
      (e0 e : event) :
  none_of kind pre = true -> none_of kind post = true ->
  pre ++ e0 :: post = h ++ e :: rest -> kind e = true ->
  h = pre /\ e = e0 /\ rest = post.
Proof.
  revert h. induction pre as [|x pre IH]; intros h Hpre Hpost Heq Hkind.
  - destruct h as [|y h]; cbn in Heq.
    + injection Heq as -> ->. auto.
    + injection Heq as _ Heq.
      rewrite (@none_of_no_event kind post h rest e Hpost Heq) in Hkind.
      discriminate.
  - rewrite none_of_cons in Hpre. apply andb_prop in Hpre as [Hx Hpre].
    destruct h as [|y h]; cbn in Heq; injection Heq as Hhead Heq.
    + subst x. rewrite Hkind in Hx. discriminate.
    + destruct (IH h Hpre Hpost Heq Hkind) as (-> & -> & ->). subst y. auto.
Qed.

Ltac trace_none :=
  trace_unfold; cbn [app];
  repeat (rewrite none_of_cons || rewrite none_of_app
          || rewrite none_of_ok_sql by reflexivity);
  reflexivity.

(** The trace [t] has no event of the kind, so it cannot be split at one. *)
Ltac no_such_event kind Hsplit Hkind :=
  exfalso;
  match type of Hsplit with
  | ?t = ?h ++ ?e :: ?rest =>
      let Hnone := fresh in
      assert (Hnone : none_of kind t = true) by trace_none;
      rewrite (@none_of_no_event kind t h rest e Hnone Hsplit) in Hkind;
      discriminate Hkind
  end.

(** The trace [t] is [pre ++ e0 :: post], with its only event of the kind
    at [e0]. *)
Ltac only_event kind Hsplit Hkind pre e0 post :=
  match type of Hsplit with
  | ?t = ?h ++ ?e :: ?rest =>
      let Heq := fresh in
      assert (Heq : pre ++ e0 :: post = t) by (symmetry; trace_eq);
      let Hpre := fresh in
      let Hpost := fresh in
      assert (Hpre : none_of kind pre = true) by trace_none;
      assert (Hpost : none_of kind post = true) by trace_none;
      destruct (@unique_event kind pre post h rest e0 e Hpre Hpost
                  (eq_trans Heq Hsplit) Hkind) as (-> & ? & ->);
      clear Hpre Hpost Heq
  end.

Ltac run_cases Hrun :=
  destruct Hrun as
    [ Hlen | prog a1 a2 Hargv Hnone | prog a1 a2 number Hargv Hint Hunknown
    | b m p Hacc Hexists | b m p e Hacc Hexists Hread Hcls
    | b m p e Hacc Hexists Hread Hcls | b m p q e Hacc Hexists Hread Htr
    | b m p q parts st t' Hacc Hexists Hread Htr Hplan ];
  [ | | | | | | |
    destruct Hplan as
      [ e Hsession | done stmt rest' e Hsession Htables Hrefused
      | e Hsession Hsql | e Hsession Hsql Hexplain
      | plan Hsession Hsql Hexplain ] ].

(** ** Spark *)

Lemma before_spark env argv status t h r rest :
  Run env argv status t ->
  t = h ++ GetOrCreate r :: rest ->
  exists benchmark number path query parts,
    accepted env argv benchmark number path
    /\ h = translated path query parts.
Proof.
  intros Hrun Hsplit.
  assert (Hkind : is_get_or_create (GetOrCreate r) = true) by reflexivity.
  run_cases Hrun;
    try (no_such_event is_get_or_create Hsplit Hkind).
  - only_event is_get_or_create Hsplit Hkind (translated p q parts)
      (GetOrCreate (Some e)) [plan_error (msg e)]. eauto 8.
  - only_event is_get_or_create Hsplit Hkind (translated p q parts)
      (GetOrCreate None)
      (ok_sql done ++ [Sql stmt (Some e); plan_error (msg e); Stop]).
    eauto 8.
  - only_event is_get_or_create Hsplit Hkind (translated p q parts)
      (GetOrCreate None)
      (ok_sql (tables b)
         ++ [Sql (String.concat PyStr.nl parts) (Some e);
             plan_error ("Failed to get physical plan: " ++ msg e)%string;
             Stop]).
    eauto 8.
  - only_event is_get_or_create Hsplit Hkind (translated p q parts)
      (GetOrCreate None)
      (ok_sql (tables b)
         ++ [Sql (String.concat PyStr.nl parts) None;
             ExplainString (String.concat PyStr.nl parts) (inl e);
             plan_error ("Failed to get physical plan: " ++ msg e)%string;
             Stop]).
    eauto 8.
  - only_event is_get_or_create Hsplit Hkind (translated p q parts)
      (GetOrCreate None)
      (ok_sql (tables b)
         ++ [Sql (String.concat PyStr.nl parts) None;
             ExplainString (String.concat PyStr.nl parts) (inr plan);
             Print plan; Stop]).
    eauto 8.
Qed.

(** X4: the script turns to Spark only once the query has been read,
    shown, translated and the translation shown: whatever comes before the
    creation of the session is the trace of these steps, for the file of
    the command line. *)
Theorem spark_after_translation
        (env : Env) (argv : list string) (h rest : trace) (r : option error) :
  run_trace env argv = h ++ GetOrCreate r :: rest ->
  exists benchmark number path query parts,
    accepted env argv benchmark number path
    /\ h = translated path query parts.
Proof.
  intros Hsplit. eapply before_spark; [apply run_sound | exact Hsplit].
Qed.

Lemma before_explain env argv status t h query r rest :
  Run env argv status t ->
  t = h ++ ExplainString query r :: rest ->
  exists benchmark number path original parts,
    accepted env argv benchmark number path
    /\ query = String.concat PyStr.nl parts
    /\ h = translated path original parts
           ++ GetOrCreate None :: ok_sql (tables benchmark)
           ++ [Sql query None].
Proof.
  intros Hrun Hsplit.
  assert (Hkind : is_explain (ExplainString query r) = true) by reflexivity.
  run_cases Hrun; try (no_such_event is_explain Hsplit Hkind).
  - only_event is_explain Hsplit Hkind
      (translated p q parts ++ GetOrCreate None :: ok_sql (tables b)
         ++ [Sql (String.concat PyStr.nl parts) None])
      (ExplainString (String.concat PyStr.nl parts) (inl e))
      [plan_error ("Failed to get physical plan: " ++ msg e)%string; Stop].
    match goal with H : ExplainString _ _ = _ |- _ => injection H as -> _ end.
    exists b, m, p, q, parts. auto.
  - only_event is_explain Hsplit Hkind
      (translated p q parts ++ GetOrCreate None :: ok_sql (tables b)
         ++ [Sql (String.concat PyStr.nl parts) None])
      (ExplainString (String.concat PyStr.nl parts) (inr plan))
      [Print plan; Stop].
    match goal with H : ExplainString _ _ = _ |- _ => injection H as -> _ end.
    exists b, m, p, q, parts. auto.
Qed.

(** X5: the query Spark is asked to explain is the translation that was
    printed, the translation of the text read from the file of the command
    line, and Spark is asked only after a session was created, every table
    of the benchmark was declared and [spark.sql] took the query. *)
Theorem plan_of_printed_translation
        (env : Env) (argv : list string) (h rest : trace) (query : string)
        (r : error + string) :
  run_trace env argv = h ++ ExplainString query r :: rest ->
  exists benchmark number path original parts,
    accepted env argv benchmark number path
    /\ query = String.concat PyStr.nl parts
    /\ h = translated path original parts
           ++ GetOrCreate None :: ok_sql (tables benchmark)
           ++ [Sql query None].
Proof.
  intros Hsplit. eapply before_explain; [apply run_sound | exact Hsplit].
Qed.

Lemma stop_is_last env argv status t h rest :
  Run env argv status t ->
  t = h ++ Stop :: rest ->
  rest = [] /\ In (GetOrCreate None) h.
Proof.
  intros Hrun Hsplit.
  assert (Hkind : is_stop Stop = true) by reflexivity.
  assert (Hin : forall a b, In (GetOrCreate None) (a ++ GetOrCreate None :: b)).
  { intros a b. apply in_or_app. right. left. reflexivity. }
  run_cases Hrun; try (no_such_event is_stop Hsplit Hkind).
  - only_event is_stop Hsplit Hkind
      (translated p q parts ++ GetOrCreate None :: ok_sql done
         ++ [Sql stmt (Some e); plan_error (msg e)])
      Stop (@nil event).
    auto.
  - only_event is_stop Hsplit Hkind
      (translated p q parts ++ GetOrCreate None :: ok_sql (tables b)
         ++ [Sql (String.concat PyStr.nl parts) (Some e);
             plan_error ("Failed to get physical plan: " ++ msg e)%string])
      Stop (@nil event).
    auto.
  - only_event is_stop Hsplit Hkind
      (translated p q parts ++ GetOrCreate None :: ok_sql (tables b)
         ++ [Sql (String.concat PyStr.nl parts) None;
             ExplainString (String.concat PyStr.nl parts) (inl e);
             plan_error ("Failed to get physical plan: " ++ msg e)%string])
      Stop (@nil event).
    auto.
  - only_event is_stop Hsplit Hkind
      (translated p q parts ++ GetOrCreate None :: ok_sql (tables b)
         ++ [Sql (String.concat PyStr.nl parts) None;
             ExplainString (String.concat PyStr.nl parts) (inr plan);
             Print plan])
      Stop (@nil event).
    auto.
Qed.

(** X6: [spark.stop()] is called only on a session that the run created,
    and it is the last thing the run does: nothing is asked of Spark, and
    nothing is printed, after the session is stopped. *)
Theorem stop_last_and_only_after_create
        (env : Env) (argv : list string) (h rest : trace) :
  run_trace env argv = h ++ Stop :: rest ->
  rest = [] /\ In (GetOrCreate None) h.
Proof.
  intros Hsplit. eapply stop_is_last; [apply run_sound | exact Hsplit].
Qed.

Lemma traceback_after_open env argv status t h err rest :
  Run env argv status t ->
  t = h ++ Traceback err :: rest ->
  rest = []
  /\ cls err <> FileNotFoundError
  /\ exists path, h = [reading path; PathExists path true;
                       OpenRead path (inl err)].
Proof.
  intros Hrun Hsplit.
  assert (Hkind : is_traceback (Traceback err) = true) by reflexivity.
  run_cases Hrun; try (no_such_event is_traceback Hsplit Hkind).
  only_event is_traceback Hsplit Hkind
    [reading p; PathExists p true; OpenRead p (inl e)]
    (Traceback e) (@nil event).
  match goal with H : Traceback _ = _ |- _ => injection H as -> end.
  eauto.
Qed.

(** X7: the only exception that escapes [main] is one raised by [open]
    or [read] on the query file, of a class other than [FileNotFoundError];
    every other failure is caught and reported by the script itself. *)
Theorem traceback_only_from_open
        (env : Env) (argv : list string) (h rest : trace) (err : error) :
  run_trace env argv = h ++ Traceback err :: rest ->
  rest = []
  /\ cls err <> FileNotFoundError
  /\ exists path, h = [reading path; PathExists path true;
                       OpenRead path (inl err)].
Proof.
  intros Hsplit.
  eapply traceback_after_open; [apply run_sound | exact Hsplit].
Qed.

(** ** The query file *)

(** X8: when the query file is there and [open] or [read] raises, the run
    stops at once with status 1: a [FileNotFoundError] (the file went away
    after the check) is printed by the script as an error line, any other
    exception escapes [main] without a line of the script. *)
Theorem unreadable_query_file
        (env : Env) (argv : list string) (benchmark : string) (number : Z)
        (path : string) (e : error) :
  accepted env argv benchmark number path ->
  path_exists env [reading path] path = true ->
  open_read env [reading path; PathExists path true] path = inl e ->
  exit_status env argv = 1%Z
  /\ run_trace env argv
     = [reading path; PathExists path true; OpenRead path (inl e);
        read_failure_report e].
Proof.
  intros (prog & a1 & a2 & -> & -> & Hint & Hb & Hpath) Hexists Hread.
  unfold reading, read_failure_report in *. run_unfold.
  rewrite Hint. script_step. rewrite Hb. script_step.
  rewrite Hpath. script_step. rewrite Hexists. script_step.
  rewrite Hread. script_step.
  destruct e as [[] m]; script_step; split; reflexivity.
Qed.

Lemma accepted_unique env argv b b' n n' p p' :
  accepted env argv b n p -> accepted env argv b' n' p' ->
  b = b' /\ n = n' /\ p = p'.
Proof.
  intros (prog & a1 & a2 & -> & -> & Hint & _ & Hp)
         (prog' & a1' & a2' & [= <- <- <-] & -> & Hint' & _ & Hp').
  assert (n = n') as <- by congruence.
  specialize (Hp initial). specialize (Hp' initial).
  repeat split; congruence.
Qed.

Ltac trace_no_fs :=
  match goal with
  | |- no_fs_access ?t = true => change (none_of fs_access t = true)
  end;
  trace_none.

Lemma fs_access_of_run env argv status t b0 n0 path :
  Run env argv status t ->
  accepted env argv b0 n0 path ->
  exists found rest,
    t = reading path :: PathExists path found :: rest
    /\ ((found = false /\ no_fs_access rest = true)
        \/ (found = true
            /\ exists r rest',
                 rest = OpenRead path r :: rest'
                 /\ no_fs_access rest' = true)).
Proof.
  intros Hrun Hacc0.
  pose proof (@accepted_not_rejected _ _ _ _ _ Hacc0) as Hrej.
  run_cases Hrun;
    try (rewrite usage_rejected in Hrej by assumption; discriminate);
    try (subst argv;
         first [ rewrite not_int_rejected in Hrej by assumption
               | rewrite (@unknown_rejected env _ _ _ _ Hint Hunknown)
                   in Hrej ];
         discriminate);
    destruct (accepted_unique Hacc Hacc0) as (_ & _ & ->).
  - exists false. eexists. split; [reflexivity|]. left. split; reflexivity.
  - exists true. eexists. split; [reflexivity|]. right.
    split; [reflexivity|]. eexists _, _. split; reflexivity.
  - exists true. eexists. split; [reflexivity|]. right.
    split; [reflexivity|]. eexists _, _. split; reflexivity.
  - exists true. eexists. split; [reflexivity|]. right.
    split; [reflexivity|]. eexists _, _. split; reflexivity.
  - exists true. eexists. split; [reflexivity|]. right.
    split; [reflexivity|]. eexists _, _. split; [reflexivity|trace_no_fs].
  - exists true. eexists. split; [reflexivity|]. right.
    split; [reflexivity|]. eexists _, _. split; [reflexivity|trace_no_fs].
  - exists true. eexists. split; [reflexivity|]. right.
    split; [reflexivity|]. eexists _, _. split; [reflexivity|trace_no_fs].
  - exists true. eexists. split; [reflexivity|]. right.
    split; [reflexivity|]. eexists _, _. split; [reflexivity|trace_no_fs].
  - exists true. eexists. split; [reflexivity|]. right.
    split; [reflexivity|]. eexists _, _. split; [reflexivity|trace_no_fs].
Qed.

(** X9: a run whose arguments are accepted touches the file system for
    the resolved path and for nothing else: it checks once that the file
    exists, right after naming it, and opens it, at most once, right after
    a check that found it. *)
Theorem file_access_discipline
        (env : Env) (argv : list string) (benchmark : string) (number : Z)
        (path : string) :
  accepted env argv benchmark number path ->
  exists found rest,
    run_trace env argv = reading path :: PathExists path found :: rest
    /\ ((found = false /\ no_fs_access rest = true)
        \/ (found = true
            /\ exists r rest',
                 rest = OpenRead path r :: rest'
                 /\ no_fs_access rest' = true)).
Proof.
  intros Hacc. eapply fs_access_of_run; [apply run_sound | exact Hacc].
Qed.

(** ** How often the outside world is called *)

Lemma count_cons (kind : event -> bool) (e : event) (t : trace) :
  count kind (e :: t) = ((if kind e then 1 else 0) + count kind t)%nat.
Proof. unfold count. cbn [filter]. destruct (kind e); reflexivity. Qed.

Lemma count_app (kind : event -> bool) (a b : trace) :
  count kind (a ++ b) = (count kind a + count kind b)%nat.
Proof. unfold count. rewrite filter_app. apply length_app. Qed.

Lemma count_ok_sql (kind : event -> bool) (stmts : list string) :
  (forall stmt, kind (Sql stmt None) = false) ->
  count kind (ok_sql stmts) = 0%nat.
Proof.
  intros Hkind. induction stmts as [|stmt stmts IH]; [reflexivity|].
  cbn [ok_sql map]. rewrite count_cons, Hkind. exact IH.
Qed.

Ltac trace_count :=
  trace_unfold; cbn [app];
  repeat (rewrite count_cons || rewrite count_app
          || rewrite count_ok_sql by reflexivity);
  cbn; lia.

Lemma calls_of_run env argv status t :
  Run env argv status t ->
  (count is_transpile t <= 1)%nat
  /\ (count is_get_or_create t <= 1)%nat
  /\ (count is_explain t <= 1)%nat
  /\ (count is_stop t <= 1)%nat.
Proof.
  intros Hrun. run_cases Hrun; repeat split; trace_count.
Qed.

(** X10: a run asks for at most one translation, creates at most one
    session, asks for at most one plan and stops a session at most once:
    nothing is tried a second time, whether it succeeded or not. *)
Theorem calls_at_most_once (env : Env) (argv : list string) :
  (count is_transpile (run_trace env argv) <= 1)%nat
  /\ (count is_get_or_create (run_trace env argv) <= 1)%nat
  /\ (count is_explain (run_trace env argv) <= 1)%nat
  /\ (count is_stop (run_trace env argv) <= 1)%nat.
Proof. eapply calls_of_run. apply run_sound. Qed.

(** ** The exit status *)

(** X11: the exit status is 0 or 1, and it is 0 exactly when the
    arguments pass the checks of [main] and no call fails. *)
Theorem exit_status_characterised (env : Env) (argv : list string) :
  (exit_status env argv = 0%Z \/ exit_status env argv = 1%Z)
  /\ (exit_status env argv = 0%Z
      <-> rejected env argv = false /\ clean (run_trace env argv) = true).
Proof.
  destruct (run_shape (run_sound env argv))
    as [ (Hst & Hrej & _)
       | [ (Hst & _ & pre & e0 & m & after & Ht & _ & He0 & _)
         | (Hst & Hrej & b & n & p & q & parts & plan & _ & Ht) ] ].
  - split; [right; exact Hst|]. split; [congruence|].
    intros [Hrej' _]. congruence.
  - split; [right; exact Hst|]. split; [congruence|].
    intros [_ Hclean].
    rewrite Ht, clean_app, clean_cons, He0, andb_false_r in Hclean.
    discriminate.
  - split; [left; exact Hst|]. split; [|intros _; exact Hst].
    intros _. split; [exact Hrej|]. rewrite Ht. trace_clean.
Qed.

(** ** The functions that wrap the collaborators *)

(** X12: [translate_to_spark] asks the translator once, for the dialect
    it is given and the dialect spark, and leaves the variable [spark]
    alone; it returns the statements joined by newlines, and whatever the
    translator raises comes back as a [RuntimeError] that keeps the
    message behind the words Failed to translate query. *)
Theorem translate_to_spark_outcome
        (env : Env) (query source_dialect : string) (s : state) :
  exists answer,
    answer = transpile env (events s) query source_dialect "spark"
    /\ snd (translate_to_spark env query source_dialect s)
       = State (events s ++ [Transpile query source_dialect "spark" answer])
               (spark s)
    /\ fst (translate_to_spark env query source_dialect s)
       = match answer with
         | inr parts => Ret (String.concat PyStr.nl parts)
         | inl e =>
             Raise (Exception (Error RuntimeError
                      ("Failed to translate query: " ++ msg e)))
         end.
Proof.
  eexists. split; [reflexivity|].
  unfold translate_to_spark, try_except, sqlglot_transpile, call, of_result.
  cbn [bind ret Monad_Py events spark].
  destruct (transpile env (events s) query source_dialect "spark");
    split; reflexivity.
Qed.

(** X13: [get_physical_plan] sends the query to [spark.sql] and, only
    when that went well, asks for the plan; it returns the plan, and
    whatever either call raises comes back as a [RuntimeError] that keeps
    the message behind the words Failed to get physical plan. *)
Theorem get_physical_plan_outcome
        (env : Env) (sp : session) (query : string) (s : state) :
  match sql env (events s) query with
  | Some e =>
      get_physical_plan env sp query s
      = (Raise (Exception (Error RuntimeError
                  ("Failed to get physical plan: " ++ msg e))),
         State (events s ++ [Sql query (Some e)]) (spark s))
  | None =>
      exists answer,
        answer = explain_string env (events s ++ [Sql query None]) query
        /\ get_physical_plan env sp query s
           = (match answer with
              | inr plan => Ret plan
              | inl e =>
                  Raise (Exception (Error RuntimeError
                           ("Failed to get physical plan: " ++ msg e)))
              end,
              State (events s ++ [Sql query None; ExplainString query answer])
                    (spark s))
  end.
Proof.
  unfold get_physical_plan, try_except, spark_sql, explainString, call,
    of_result, of_status.
  cbn [bind ret Monad_Py events spark].
  destruct (sql env (events s) query) as [e|]; cbn [raise]; [reflexivity|].
  eexists. split; [reflexivity|]. cbn [events spark].
  rewrite <- app_assoc. cbn [app].
  destruct (explain_string env (events s ++ [Sql query None]) query);
    reflexivity.
Qed.

(** X14: [create_tpc_h_tables] sends its eight statements in the order of
    the script and [create_tpc_ds_tables] its twenty-four; each stops at
    the first statement Spark refuses and raises the error of Spark as it
    is, the statements after it are not sent, and the variable [spark] is
    left alone. *)
Theorem create_tables_stop_at_first_refusal (env : Env) (sp : session) :
  sends env (tables "tpc-h") (create_tpc_h_tables env sp)
  /\ sends env (tables "tpc-ds") (create_tpc_ds_tables env sp)
  /\ length (tables "tpc-h") = 8%nat
  /\ length (tables "tpc-ds") = 24%nat.
Proof.
  split; [exact (create_tables_run env sp "tpc-h")|].
  split; [exact (create_tables_run env sp "tpc-ds")|].
  split; reflexivity.
Qed.

(** ** Numerals *)

Lemma digits_acc (d : Decimal.uint) (acc : positive) (cnt : nat) :
  PyStr.digits (Z.pos acc) cnt true
    (list_ascii_of_string (NilEmpty.string_of_uint d))
  = Some (Z.pos (Pos.of_uint_acc d acc), (cnt + Decimal.nb_digits d)%nat).
Proof.
  revert acc cnt.
  induction d as [|d IH|d IH|d IH|d IH|d IH|d IH|d IH|d IH|d IH|d IH];
    intros acc cnt;
    cbn [NilEmpty.string_of_uint list_ascii_of_string PyStr.digits
         Pos.of_uint_acc Decimal.nb_digits];
    rewrite ?Nat.add_0_r, ?Nat.add_succ_r; try reflexivity;
    change (PyStr.is_digit _) with true; cbv iota;
    match goal with
    | |- PyStr.digits ?v _ _ _ = Some (Z.pos (Pos.of_uint_acc _ ?a), _) =>
        replace v with (Z.pos a)
          by (unfold PyStr.digit_value;
              match goal with
              | |- context [Z.of_N (N_of_ascii ?c)] =>
                  let v := eval vm_compute in (Z.of_N (N_of_ascii c)) in
                  change (Z.of_N (N_of_ascii c)) with v
              end; lia)
    end;
    apply IH.
Qed.

Lemma digits_uint (d : Decimal.uint) (cnt : nat) (seen : bool) :
  d <> Decimal.Nil ->
  PyStr.digits 0 cnt seen (list_ascii_of_string (NilEmpty.string_of_uint d))
  = Some (Z.of_N (Pos.of_uint d), (cnt + Decimal.nb_digits d)%nat).
Proof.
  revert cnt seen.
  induction d as [|d IH|d IH|d IH|d IH|d IH|d IH|d IH|d IH|d IH|d IH];
    intros cnt seen Hd; [congruence| |..];
    cbn [NilEmpty.string_of_uint list_ascii_of_string PyStr.digits
         Pos.of_uint Decimal.nb_digits Z.of_N];
    change (PyStr.is_digit _) with true; cbv iota;
    rewrite ?Nat.add_succ_r;
    try (rewrite <- Nat.add_succ_l; apply (digits_acc d)).
  destruct d; [cbn; rewrite Nat.add_0_r; reflexivity | ..];
    (rewrite <- Nat.add_succ_l; apply IH; discriminate).
Qed.

Lemma uint_no_space (d : Decimal.uint) :
  forallb (fun c => negb (PyStr.is_space c))
    (list_ascii_of_string (NilEmpty.string_of_uint d)) = true.
Proof. induction d; cbn; auto. Qed.

Lemma uint_length (d : Decimal.uint) :
  String.length (NilEmpty.string_of_uint d) = Decimal.nb_digits d.
Proof. induction d; cbn; congruence. Qed.

Lemma uint_first (d : Decimal.uint) :
  d <> Decimal.Nil ->
  exists c k,
    list_ascii_of_string (NilEmpty.string_of_uint d) = c :: k
    /\ Ascii.eqb c "-" = false /\ Ascii.eqb c "+" = false.
Proof. destruct d; [congruence|..]; intros _; cbn; eauto. Qed.

Lemma strip_no_space (l : list ascii) :
  forallb (fun c => negb (PyStr.is_space c)) l = true -> PyStr.strip l = l.
Proof.
  intros Hl.
  assert (Hlstrip : forall k,
             forallb (fun c => negb (PyStr.is_space c)) k = true ->
             PyStr.lstrip k = k).
  { intros [|c k]; [reflexivity|]. cbn. intros H.
    apply andb_prop in H as [H _]. apply negb_true_iff in H.
    rewrite H. reflexivity. }
  unfold PyStr.strip. rewrite (Hlstrip l Hl).
  rewrite Hlstrip; [apply rev_involutive|].
  apply forallb_forall. intros c Hc. apply in_rev in Hc.
  revert c Hc. now apply forallb_forall.
Qed.

(** X15: [int] reads the numeral that [str] writes: the number in the name
    of the query file reads back as the query number, when the number of
    its digits is within the limit on the length of numerals. *)
Theorem int_of_str (limit : nat) (n : Z) :
  limit = 0%nat \/ (String.length (PyStr.of_int (Z.abs n)) <= limit)%nat ->
  PyStr.to_int limit (PyStr.of_int n) = Some n.
Proof.
  intros Hlimit.
  assert (Hbound : forall count,
             (limit = 0%nat \/ count <= limit)%nat ->
             negb (limit =? 0)%nat && (limit <? count)%nat = false).
  { intros count [-> | Hle]; [reflexivity|].
    apply andb_false_iff. right. apply Nat.ltb_ge. exact Hle. }
  unfold PyStr.to_int, PyStr.of_int in *.
  destruct n as [|p|p]; cbn [Z.abs Z.to_int NilZero.string_of_int] in *.
  - cbn. destruct limit; reflexivity.
  - assert (Hd := DecimalPos.Unsigned.to_uint_nonnil p).
    assert (Hs : NilZero.string_of_uint (Pos.to_uint p)
                 = NilEmpty.string_of_uint (Pos.to_uint p)).
    { unfold NilZero.string_of_uint. destruct (Pos.to_uint p); congruence. }
    rewrite Hs in *. rewrite strip_no_space by apply uint_no_space.
    rewrite uint_length in Hlimit.
    destruct (@uint_first (Pos.to_uint p) Hd) as (c & k & Hck & Hminus & Hplus).
    rewrite Hck. cbv iota. rewrite Hminus, Hplus, <- Hck.
    rewrite (@digits_uint (Pos.to_uint p) 0 false Hd),
      DecimalPos.Unsigned.of_to.
    cbn [Nat.add]. rewrite Hbound by exact Hlimit. reflexivity.
  - assert (Hd := DecimalPos.Unsigned.to_uint_nonnil p).
    assert (Hs : NilZero.string_of_uint (Pos.to_uint p)
                 = NilEmpty.string_of_uint (Pos.to_uint p)).
    { unfold NilZero.string_of_uint. destruct (Pos.to_uint p); congruence. }
    rewrite Hs in *. cbn [list_ascii_of_string].
    rewrite strip_no_space
      by (cbn [forallb]; rewrite uint_no_space; reflexivity).
    change (Ascii.eqb "-" "-") with true. cbv iota.
    rewrite uint_length in Hlimit.
    rewrite (@digits_uint (Pos.to_uint p) 0 false Hd),
      DecimalPos.Unsigned.of_to.
    cbn [Nat.add]. rewrite Hbound; [reflexivity|].
    exact Hlimit.
Qed.

(** ** The further properties at work *)

Lemma tpc_h_1_accepted :
  accepted (sample_world tpc_h_1_file) tpc_h_1 "tpc-h" 1 tpc_h_1_file.
Proof.
  exists script_name, "tpc-h", "1". repeat split; intros; reflexivity.
Defined.

Lemma tpc_h_1_locked_accepted :
  accepted (locked_world tpc_h_1_file) tpc_h_1 "tpc-h" 1 tpc_h_1_file.
Proof.
  exists script_name, "tpc-h", "1". repeat split; intros; reflexivity.
Defined.

(** Another way to write the first query of TPC-H. *)
Lemma run_by_value_witness :
  run (sample_world tpc_h_1_file) ["python"; "TPC-H"; " +0_1 "]
  = run (sample_world tpc_h_1_file) tpc_h_1.
Proof.
  apply (@run_by_value (sample_world tpc_h_1_file) "python" script_name
           "TPC-H" "tpc-h" " +0_1 " "1" 1%Z); reflexivity.
Defined.

Lemma query_path_injective_witness :
  "tpc-h" = "tpc-h" /\ 1%Z = 1%Z.
Proof.
  apply (@query_path_injective (sample_world tpc_h_1_file) tpc_h_1
           [script_name; "Tpc-H"; "01"] "tpc-h" "tpc-h" 1 1 tpc_h_1_file).
  - exact tpc_h_1_accepted.
  - exists script_name, "Tpc-H", "01". repeat split; intros; reflexivity.
Defined.

Lemma query_file_inside_script_dir_witness :
  exists glue name,
    (glue = "" \/ glue = "/")
    /\ (("tpc-h" = "tpc-h"
         /\ name = (PyStr.of_int (-5) ++ ".sql")%string)
        \/ ("tpc-h" = "tpc-ds"
            /\ name = ("query" ++ PyStr.of_int (-5) ++ ".sql")%string))
    /\ PyStr.contains "/" name = false
    /\ name <> ".." /\ name <> "."
    /\ tpc_h_minus_5_file
       = ("/opt/duckdb-tpc" ++ glue ++ query_dir "tpc-h" ++ "/" ++ name)
         %string.
Proof.
  apply (@query_file_inside_script_dir (sample_world tpc_h_minus_5_file)
           tpc_h_minus_5 "tpc-h" (-5) tpc_h_minus_5_file).
  exists script_name, "tpc-h", "-5". repeat split; intros; reflexivity.
Defined.

Lemma spark_after_translation_witness :
  exists benchmark number path query parts,
    accepted (sample_world tpc_h_1_file) tpc_h_1 benchmark number path
    /\ firstn 15 (run_trace (sample_world tpc_h_1_file) tpc_h_1)
       = translated path query parts.
Proof.
  apply (@spark_after_translation (sample_world tpc_h_1_file) tpc_h_1
           (firstn 15 (run_trace (sample_world tpc_h_1_file) tpc_h_1))
           (skipn 16 (run_trace (sample_world tpc_h_1_file) tpc_h_1))
           None).
  vm_compute. reflexivity.
Defined.

Lemma plan_of_printed_translation_witness :
  exists benchmark number path original parts,
    accepted (sample_world tpc_h_1_file) tpc_h_1 benchmark number path
    /\ String.concat PyStr.nl ["SELECT"; "  1"]
       = String.concat PyStr.nl parts
    /\ firstn 25 (run_trace (sample_world tpc_h_1_file) tpc_h_1)
       = translated path original parts
           ++ GetOrCreate None :: ok_sql (tables benchmark)
           ++ [Sql (String.concat PyStr.nl ["SELECT"; "  1"]) None].
Proof.
  apply (@plan_of_printed_translation (sample_world tpc_h_1_file) tpc_h_1
           (firstn 25 (run_trace (sample_world tpc_h_1_file) tpc_h_1))
           (skipn 26 (run_trace (sample_world tpc_h_1_file) tpc_h_1))
           (String.concat PyStr.nl ["SELECT"; "  1"])
           (inr "== Physical Plan ==")).
  vm_compute. reflexivity.
Defined.

Lemma stop_last_and_only_after_create_witness :
  skipn 28 (run_trace (sample_world tpc_h_1_file) tpc_h_1) = []
  /\ In (GetOrCreate None)
        (firstn 27 (run_trace (sample_world tpc_h_1_file) tpc_h_1)).
Proof.
  apply (@stop_last_and_only_after_create (sample_world tpc_h_1_file)
           tpc_h_1).
  vm_compute. reflexivity.
Defined.

Lemma traceback_only_from_open_witness :
  skipn 4 (run_trace (locked_world tpc_h_1_file) tpc_h_1) = []
  /\ cls (Error OtherException "[Errno 13] Permission denied")
     <> FileNotFoundError
  /\ exists path,
       firstn 3 (run_trace (locked_world tpc_h_1_file) tpc_h_1)
       = [reading path; PathExists path true;
          OpenRead path
            (inl (Error OtherException "[Errno 13] Permission denied"))].
Proof.
  apply (@traceback_only_from_open (locked_world tpc_h_1_file) tpc_h_1).
  vm_compute. reflexivity.
Defined.

Lemma unreadable_query_file_witness :
  exit_status (locked_world tpc_h_1_file) tpc_h_1 = 1%Z
  /\ run_trace (locked_world tpc_h_1_file) tpc_h_1
     = [reading tpc_h_1_file; PathExists tpc_h_1_file true;
        OpenRead tpc_h_1_file
          (inl (Error OtherException "[Errno 13] Permission denied"));
        Traceback (Error OtherException "[Errno 13] Permission denied")].
Proof.
  apply (@unreadable_query_file (locked_world tpc_h_1_file) tpc_h_1
           "tpc-h" 1 tpc_h_1_file
           (Error OtherException "[Errno 13] Permission denied")
           tpc_h_1_locked_accepted);
    reflexivity.
Defined.

Lemma file_access_discipline_witness :
  exists found rest,
    run_trace (sample_world tpc_h_1_file) tpc_h_1
    = reading tpc_h_1_file :: PathExists tpc_h_1_file found :: rest
    /\ ((found = false /\ no_fs_access rest = true)
        \/ (found = true
            /\ exists r rest',
                 rest = OpenRead tpc_h_1_file r :: rest'
                 /\ no_fs_access rest' = true)).
Proof.
  exact (@file_access_discipline (sample_world tpc_h_1_file) tpc_h_1
           "tpc-h" 1 tpc_h_1_file tpc_h_1_accepted).
Defined.

Lemma exit_status_characterised_witness :
  rejected (sample_world tpc_h_1_file) tpc_h_1 = false
  /\ clean (run_trace (sample_world tpc_h_1_file) tpc_h_1) = true.
Proof.
  apply (proj2 (exit_status_characterised (sample_world tpc_h_1_file)
                  tpc_h_1)).
  reflexivity.
Defined.

Lemma int_of_str_witness :
  PyStr.to_int 4300 (PyStr.of_int (-42)) = Some (-42)%Z.
Proof. apply int_of_str. right. cbn. lia. Defined.
